(** * myna: card session (reader.go) and high-level API (libmyna/api.go)

    A shallow embedding of the two Go sources and the properties of the
    specification that concern them.

    Conventions.
    - Go's [uint8] and [uint16] are [Z] with the wrap-around written out
      ([wrap8], [wrap16]); [[]byte] is [list Z], a nil slice being the empty
      list (Go only ever takes [len] of these slices, which is 0 for both).
    - Go's [string] is [string]; an [error] is its message, [nil] is [None].
    - The PC/SC driver and the card are external: their answers are given by
      oracles that see the whole interaction so far (the trace), which covers
      every deterministic device. Every call to them is appended to the trace,
      together with what the program prints and how long it sleeps. *)

From Stdlib Require Import ZArith List String Ascii Bool Lia Sorted.
Import ListNotations.
Local Open Scope string_scope.
Local Open Scope list_scope.
Local Open Scope Z_scope.

(** String concatenation (Go's [+] on strings); [++] is kept for lists. *)
Infix "+++" := String.append (right associativity, at level 60).

(** ** Go primitives *)

Module Go.

Definition error := string.

Definition wrap8 (z : Z) : Z := z mod 256.
Definition wrap16 (z : Z) : Z := z mod 65536.

(** [len(s)] as a Go [int]. *)
Definition len {A : Type} (s : list A) : Z := Z.of_nat (List.length s).

(** [s[i]] for an index already known to be in range. *)
Definition index (s : list Z) (i : Z) : Z := nth (Z.to_nat i) s 0.

Definition LF : string := String (ascii_of_nat 10) EmptyString.

(** The upper-case hexadecimal digit of a value below 16. *)
Definition hexdigit (d : Z) : ascii :=
  ascii_of_N (Z.to_N (if d <? 10 then 48 + d else 55 + d)).

(** [fmt.Sprintf("%02X", v)] for a value below 256 (every use in the
    sources masks or truncates its argument to one octet). *)
Definition fmt_02X (v : Z) : string :=
  String (hexdigit (v / 16)) (String (hexdigit (v mod 16)) EmptyString).

(** [fmt.Sprintf("% X", bytes)]: octets in upper-case hex, blank-separated. *)
Fixpoint fmt_spX (bs : list Z) : string :=
  match bs with
  | [] => ""
  | [b] => fmt_02X b
  | b :: rest => fmt_02X b +++ " " +++ fmt_spX rest
  end.

(** The value of a hexadecimal digit, in either case. *)
Definition hexval (c : ascii) : option Z :=
  let n := Z.of_N (N_of_ascii c) in
  if (48 <=? n) && (n <=? 57) then Some (n - 48)
  else if (65 <=? n) && (n <=? 70) then Some (n - 55)
  else if (97 <=? n) && (n <=? 102) then Some (n - 87)
  else None.

Fixpoint remove_spaces (s : string) : string :=
  match s with
  | EmptyString => EmptyString
  | String c rest =>
      if Ascii.eqb c " " then remove_spaces rest
      else String c (remove_spaces rest)
  end.

(** Pairs of hex digits to octets; decoding stops at the first pair that
    is not hexadecimal and keeps what was decoded before it. *)
Fixpoint hex_decode (s : string) : list Z :=
  match s with
  | String h (String l rest) =>
      match hexval h, hexval l with
      | Some a, Some b => (16 * a + b) :: hex_decode rest
      | _, _ => []
      end
  | _ => []
  end.

(** Modelled from the spec: [ToBytes] is not under src/. Every APDU text
    of reader.go is a sequence of hexadecimal octets separated by blanks,
    and the transport is handed the raw byte string it stands for (§3,
    APDU Command): hexadecimal octets, blanks ignored. *)
Definition ToBytes (s : string) : list Z := hex_decode (remove_spaces s).

End Go.

(** ** The PC/SC collaborator (github.com/ebfe/go.pcsclite/scard)

    Only its interface is modelled. The constants are those of PC/SC. *)

Module Scard.

Definition STATE_UNAWARE : Z := 0x0000.
Definition STATE_PRESENT : Z := 0x0020.
Definition SHARE_EXCLUSIVE : Z := 0x0001.
Definition PROTOCOL_ANY : Z := 0x0003.
Definition INFINITE : Z := 0xFFFFFFFF.

Record ReaderState := mkReaderState {
  Reader : string;
  CurrentState : Z;
  EventState : Z
}.

(** A [*scard.Card] is [option Card]: [None] is the nil pointer. *)
Definition Card := Z.

Inductive Event :=
| EvEstablishContext (err : option Go.error)
| EvListReaders (readers : list string) (err : option Go.error)
| EvGetStatusChange (rs : list ReaderState) (timeout : Z)
                    (events : list Z) (err : option Go.error)
| EvConnect (name : string) (share proto : Z)
            (card : option Card) (err : option Go.error)
| EvTransmit (card : option Card) (cmd res : list Z) (err : option Go.error)
| EvRelease
| EvSleep (ns : Z)
| EvStdout (s : string)
| EvStderr (s : string).

(** Oldest event first. *)
Definition Trace := list Event.

(** The driver's answers, each a function of the interaction so far.
    [GetStatusChange] answers with the event state it writes into every
    entry of the slice it is given. *)
Record Driver := mkDriver {
  EstablishContext : Trace -> option Go.error;
  ListReaders : Trace -> list string * option Go.error;
  GetStatusChange : Trace -> list ReaderState -> Z -> list Z * option Go.error;
  Connect : Trace -> string -> Z -> Z -> option Card * option Go.error;
  Transmit : Trace -> option Card -> list Z -> list Z * option Go.error
}.

(** The in-place update of the reader states by [GetStatusChange]. *)
Fixpoint set_events (rs : list ReaderState) (events : list Z) : list ReaderState :=
  match rs, events with
  | r :: rs', e :: events' =>
      mkReaderState (Reader r) (CurrentState r) e :: set_events rs' events'
  | _, _ => rs
  end.

End Scard.

(** ** reader.go (package main): the card session *)

Module Reader.
Import Go Scard.

(** [time.Second], in nanoseconds. *)
Definition Second : Z := 1000000000.

(** The [Reader] struct: [ctx] is the driver the functions below are
    parameterised by, and [c] is only ever asked for its "verbose" flag. *)
Record Reader := mkReader {
  name : string;
  verbose : bool;
  card : option Card
}.

Definition set_card (self : Reader) (c : option Card) : Reader :=
  mkReader (name self) (verbose self) c.

(** How a call ends: it returns, or [os.Exit] ends the process. *)
Inductive Outcome (A : Type) :=
| Return (a : A)
| Exit (code : Z).
Arguments Return {A} a.
Arguments Exit {A} code.

Section WithDriver.
Variable D : Driver.

(** [NewReader]; [verbose] is the flag that [c] will be asked for. *)
Definition NewReader (verbose : bool) (t : Trace) : option Reader * Trace :=
  let err := EstablishContext D t in
  let t1 := t ++ [EvEstablishContext err] in
  match err with
  | Some e => (None, t1 ++ [EvStderr ("error: " +++ e +++ LF)])
  | None =>
      let '(readers, err) := ListReaders D t1 in
      let t2 := t1 ++ [EvListReaders readers err] in
      match err, readers with
      | None, first :: _ =>
          let t3 :=
            if len readers >=? 2 then
              t2 ++ [EvStderr ("警告: 複数のリーダーが見つかりました。最初のものを使います。"
                               +++ LF)]
            else t2 in
          (Some (mkReader first verbose None), t3)
      | _, _ =>
          (None, t2 ++ [EvStderr ("エラー: リーダーが見つかりません。" +++ LF)])
      end
  end.

Definition Finalize (self : Reader) (t : Trace) : Trace := t ++ [EvRelease].

Definition GetCard (self : Reader) (t : Trace) : option Card * Reader * Trace :=
  let '(card, err) := Connect D t (name self) SHARE_EXCLUSIVE PROTOCOL_ANY in
  (card, set_card self card,
   t ++ [EvConnect (name self) SHARE_EXCLUSIVE PROTOCOL_ANY card err]).

(** The loop of [WaitForCard] with [n] iterations left ([i = 3 - n]),
    followed by the code after the loop. *)
Fixpoint WaitForCard_loop (n : nat) (self : Reader) (rs : list ReaderState)
         (t : Trace) : Outcome (option Card) * Reader * Trace :=
  match n with
  | O => (Exit 1, self, t ++ [EvStderr ("カードが見つかりません。" +++ LF)])
  | S n' =>
      let '(events, err) := GetStatusChange D t rs INFINITE in
      let rs' := set_events rs events in
      let t1 := t ++ [EvGetStatusChange rs INFINITE events err] in
      match err with
      | Some e =>
          (Return None, self, t1 ++ [EvStderr ("エラー: " +++ e +++ LF)])
      | None =>
          if negb (Z.land (EventState (nth 0 rs' (mkReaderState "" 0 0)))
                          STATE_PRESENT =? 0)
          then
            let '(card, cerr) :=
              Connect D t1 (name self) SHARE_EXCLUSIVE PROTOCOL_ANY in
            (Return card, set_card self card,
             t1 ++ [EvConnect (name self) SHARE_EXCLUSIVE PROTOCOL_ANY card cerr])
          else
            WaitForCard_loop n' self rs'
              (t1 ++ [EvStderr ("wait for card..." +++ LF); EvSleep (1 * Second)])
      end
  end.

Definition WaitForCard (self : Reader) (t : Trace)
  : Outcome (option Card) * Reader * Trace :=
  let rs := [mkReaderState (name self) STATE_UNAWARE 0] in
  WaitForCard_loop 3 self rs t.

(** The verbose echo of a response, 16 octets per line. The writes of
    one echo are gathered into one [EvStdout]. *)
Fixpoint dump_from (i : Z) (res : list Z) : string :=
  match res with
  | [] => ""
  | b :: rest =>
      (if i mod 0x10 =? 0 then "<<" else "") +++
      " " +++ fmt_02X b +++
      (if i mod 0x10 =? 0x0f then LF else "") +++
      dump_from (i + 1) rest
  end.

Definition dump (res : list Z) : string := dump_from 0 res +++ LF.

(** The trace at the moment [Tx] calls [card.Transmit]. What a nil
    [self.card] does there is the driver's to say. *)
Definition Tx_before (self : Reader) (apdu : string) (t : Trace) : Trace :=
  if verbose self then t ++ [EvStdout (">> " +++ apdu +++ LF)] else t.

Definition Tx (self : Reader) (apdu : string) (t : Trace)
  : (Z * Z * list Z) * Trace :=
  let t0 := Tx_before self apdu t in
  let cmd := ToBytes apdu in
  let '(res, err) := Transmit D t0 (card self) cmd in
  let t1 := t0 ++ [EvTransmit (card self) cmd res err] in
  match err with
  | Some e => ((0, 0, []), t1 ++ [EvStdout ("err: " +++ e +++ LF)])
  | None =>
      let t2 := if verbose self then t1 ++ [EvStdout (dump res)] else t1 in
      let l := len res in
      if l =? 2 then ((index res 0, index res 1, []), t2)
      else if l >? 2 then
        ((index res (l - 2), index res (l - 1), firstn (Z.to_nat (l - 2)) res), t2)
      else ((0, 0, []), t2)
  end.

Definition SelectDF (self : Reader) (id : string) (t : Trace) : (Z * Z) * Trace :=
  let bid := ToBytes id in
  let apdu := "00 A4 04 0C" +++ " " +++ fmt_02X (len bid) +++ " " +++ fmt_spX bid in
  let '((sw1, sw2, _), t') := Tx self apdu t in
  ((sw1, sw2), t').

Definition SelectAP (self : Reader) (aid : string) (t : Trace) : (Z * Z) * Trace :=
  SelectDF self aid t.

Definition SelectEF (self : Reader) (id : string) (t : Trace) : (Z * Z) * Trace :=
  let bid := ToBytes id in
  let apdu := "00 A4 02 0C" +++ " " +++ fmt_02X (len bid) +++ " " +++ fmt_spX bid in
  let '((sw1, sw2, _), t') := Tx self apdu t in
  ((sw1, sw2), t').

Definition CheckCard (self : Reader) (t : Trace) : Outcome unit * Reader * Trace :=
  match WaitForCard self t with
  | (Exit code, self', t') => (Exit code, self', t')
  | (Return _, self', t') =>
      let aid := "D3 92 f0 00 26 01 00 00 00 01" in
      let apdu := "00 A4 04 0C" +++ " 0A " +++ aid in
      let '((sw1, sw2, _), t'') := Tx self' apdu t' in
      if (sw1 =? 0x90) && (sw2 =? 0x00) then (Return tt, self', t'')
      else (Exit 1, self',
            t'' ++ [EvStderr ("これは個人番号カードではありません。" +++ LF)])
  end.

(** The text of one READ BINARY command, as [ReadBinary] formats it. *)
Definition ReadBinary_apdu (pos l : Z) : string :=
  "00 B0 " +++ fmt_02X (Z.land (Z.shiftr pos 8) 0xFF) +++ " " +++
  fmt_02X (Z.land pos 0xFF) +++ " " +++ fmt_02X l.

(** The length octet [l] of one READ BINARY command, for [uint16] [size]
    and [pos]. *)
Definition ReadBinary_length (size pos : Z) : Z :=
  if wrap16 (size - pos) >? 0xFF then 0 else wrap8 (wrap16 (size - pos)).

(** The paging loop of [ReadBinary], from the state [(pos, res)]. Go's
    loop has no bound; [fuel] bounds the number of iterations and
    [None] means it was used up before the loop ended. *)
Fixpoint ReadBinary_loop (fuel : nat) (self : Reader) (size pos : Z)
         (res : list Z) (t : Trace) : option (list Z * Trace) :=
  match fuel with
  | O => None
  | S fuel' =>
      if pos <? size then
        let l := ReadBinary_length size pos in
        let apdu := ReadBinary_apdu pos l in
        let '((sw1, sw2, data), t') := Tx self apdu t in
        if negb (sw1 =? 0x90) || negb (sw2 =? 0x00) then Some ([], t')
        else ReadBinary_loop fuel' self size
               (wrap16 (pos + wrap16 (len data))) (res ++ data) t'
      else Some (res, t)
  end.

Definition ReadBinary (fuel : nat) (self : Reader) (size : Z) (t : Trace)
  : option (list Z * Trace) :=
  ReadBinary_loop fuel self size 0 [] t.

End WithDriver.

End Reader.

(** ** libmyna/api.go: the high-level API *)

Module Libmyna.
Import Go.

(** A [*x509.Certificate] is [option Certificate]. *)
Record Certificate := mkCertificate {
  Raw : list Z;
  PublicKey : list Z
}.

(** The two fields of [asn1.RawValue] that the API reads. *)
Record RawValue := mkRawValue {
  Bytes : list Z;
  FullBytes : list Z
}.

Definition ObjectIdentifier := list Z.

(** Every call that leaves the process: to the card session of libmyna
    (whose code is not under src/) and to the file system. *)
Inductive Call :=
| CNewReader
| CFinalize
| CSetDebug (d : bool)
| CConnect
| CSelectJPKIAP
| CSelectCardInputHelperAP
| CSelectEF (id : string)
| CVerify (pin : string)
| CReadBinary (size : Z)
| CChangePin (newpin : string)
| CSignature (digestInfo : list Z)
| CGetToken
| CVerifySignPin (pin : string)
| CReadCertificate (efid : string)
| CReadFile (path : string)
| COpenFile (path : string)
| CPemEncode (blockType : string) (bytes : list Z)
| CWrite (bytes : list Z)
| CClose.

(** Oldest call first. *)
Definition Log := list Call.

(** What the outside answers, as a function of the calls made so far. *)
Record World := mkWorld {
  newReader : Log -> option error;
  connect : Log -> option error;
  selectJPKIAP : Log -> option error;
  selectCardInputHelperAP : Log -> option error;
  selectEF : Log -> string -> option error;
  verify : Log -> string -> option error;
  readBinary : Log -> Z -> list Z;
  changePin : Log -> string -> bool;
  signature : Log -> list Z -> list Z * option error;
  getToken : Log -> string * option error;
  verifySignPin : Log -> string -> option error;
  readCertificate : Log -> string -> option Certificate * option error;
  readFile : Log -> string -> list Z * option error;
  openFile : Log -> string -> option error;
  pemEncode : Log -> string -> list Z -> option error;
  write : Log -> list Z -> option error
}.

(** The pure helpers the API calls: those of libmyna that are not under
    src/ and those of Go's libraries. [Unmarshal] gives what
    [asn1.Unmarshal] leaves in its target; [Parse] gives the error, size
    and offset of [ASN1PartialParser]; the [pkcs7_] fields are the steps
    of the CMS builder, [pkcs7_toSign] being the hash and digest that
    [AddSigner] hands to the signer. *)
Record Lib := mkLib {
  Debug : bool;
  ToUpper : string -> string;
  Validate4DigitPin : string -> option error;
  ValidateJPKISignPassword : string -> option error;
  makeDigestInfo : Z -> list Z -> list Z;
  Unmarshal : list Z -> RawValue;
  Parse : list Z -> option error * Z * Z;
  SignedData : Type;
  pkcs7_NewSignedData : list Z -> option SignedData;
  pkcs7_SetDigestAlgorithm : SignedData -> ObjectIdentifier -> SignedData;
  pkcs7_toSign : SignedData -> Certificate -> Z * list Z;
  pkcs7_addSignature : SignedData -> Certificate -> list Z
                       -> SignedData * option error;
  pkcs7_Finish : SignedData -> list Z * option error
}.

(** A call returns or panics. *)
Inductive Result (A : Type) :=
| Ret (a : A)
| Panic (msg : string).
Arguments Ret {A} a.
Arguments Panic {A} msg.

Definition M (A : Type) : Type := Log -> Result A * Log.

Definition ret {A} (a : A) : M A := fun log => (Ret a, log).

Definition panic {A} (msg : string) : M A := fun log => (Panic msg, log).

Definition bind {A B} (c : M A) (k : A -> M B) : M B :=
  fun log =>
    match c log with
    | (Ret a, log') => k a log'
    | (Panic msg, log') => (Panic msg, log')
    end.

(** One call to the outside: its answer is computed from the log so far
    and the call is then recorded. *)
Definition call {A} (answer : Log -> A) (c : Call) : M A :=
  fun log => (Ret (answer log), log ++ [c]).

(** [defer reader.Finalize()]: runs when the body ends, also by panic. *)
Definition defer_Finalize {A} (body : M A) : M A :=
  fun log => let '(r, log') := body log in (r, log' ++ [CFinalize]).

(** [if err != nil { return fail(err) }], then the rest. *)
Definition on_err {B} (c : M (option error)) (fail : error -> B) (k : M B) : M B :=
  bind c (fun err => match err with Some e => ret (fail e) | None => k end).

Notation "x <- c ;; k" := (bind c (fun x => k))
  (at level 61, c at next level, right associativity).
Notation "' pat <- c ;; k" := (bind c (fun x => let 'pat := x in k))
  (at level 61, pat pattern, c at next level, right associativity).
Notation "c ;;; k" := (bind c (fun _ => k))
  (at level 61, right associativity).
Notation "'check' c 'else' fail ;; k" := (on_err c fail k)
  (at level 61, c at next level, fail at next level, right associativity).

(** [s[from:]]: panics when [from] exceeds the length. *)
Definition slice_from (s : list Z) (from : Z) : M (list Z) :=
  if from >? len s then panic "slice bounds out of range"
  else ret (skipn (Z.to_nat from) s).

(** [string(bytes)]. *)
Fixpoint string_of_bytes (bs : list Z) : string :=
  match bs with
  | [] => EmptyString
  | b :: rest => String (ascii_of_N (Z.to_N b)) (string_of_bytes rest)
  end.

Definition OIDDigestAlgorithmSHA1 : ObjectIdentifier := [1; 3; 14; 3; 2; 26].
Definition OIDDigestAlgorithmSHA256 : ObjectIdentifier := [2; 16; 840; 1; 101; 3; 4; 2; 1].
Definition OIDDigestAlgorithmSHA384 : ObjectIdentifier := [2; 16; 840; 1; 101; 3; 4; 2; 2].
Definition OIDDigestAlgorithmSHA512 : ObjectIdentifier := [2; 16; 840; 1; 101; 3; 4; 2; 3].

Record JPKISignSigner := mkJPKISignSigner {
  pin : string;
  pubkey : list Z
}.

Record CmsSignOpts := mkCmsSignOpts {
  Hash : string;
  Form : string
}.

Section WithWorld.
Variable L : Lib.
Variable W : World.

(** *** The card session of libmyna, at its interface *)

Definition NewReader : M (option error) := call (newReader W) CNewReader.
Definition SetDebug (d : bool) : M unit := call (fun _ => tt) (CSetDebug d).
Definition Connect : M (option error) := call (connect W) CConnect.
Definition SelectJPKIAP : M (option error) := call (selectJPKIAP W) CSelectJPKIAP.
Definition SelectCardInputHelperAP : M (option error) :=
  call (selectCardInputHelperAP W) CSelectCardInputHelperAP.
Definition SelectEF (id : string) : M (option error) :=
  call (fun log => selectEF W log id) (CSelectEF id).
Definition Verify (pin : string) : M (option error) :=
  call (fun log => verify W log pin) (CVerify pin).
Definition ReadBinary (size : Z) : M (list Z) :=
  call (fun log => readBinary W log size) (CReadBinary size).
Definition ChangePin (newpin : string) : M bool :=
  call (fun log => changePin W log newpin) (CChangePin newpin).
Definition Signature (digestInfo : list Z) : M (list Z * option error) :=
  call (fun log => signature W log digestInfo) (CSignature digestInfo).
Definition GetToken : M (string * option error) := call (getToken W) CGetToken.
Definition VerifySignPin (pin : string) : M (option error) :=
  call (fun log => verifySignPin W log pin) (CVerifySignPin pin).
Definition ReadCertificate (efid : string)
  : M (option Certificate * option error) :=
  call (fun log => readCertificate W log efid) (CReadCertificate efid).

(** *** api.go *)

Definition CheckCard : M (option error) :=
  check NewReader else Some ;;
  defer_Finalize (
    SetDebug (Debug L) ;;;
    check Connect else Some ;;
    check SelectJPKIAP
      else (fun _ => Some "個人番号カードではありません") ;;
    check SelectEF "00 06"
      else (fun _ => Some "トークン情報を取得できません") ;;
    '(token, _) <- GetToken ;;
    if String.eqb token "JPKIAPICCTOKEN2" then ret None
    else if String.eqb token "JPKIAPICCTOKEN" then
      ret (Some "これは住基カードですね?")
    else ret (Some ("不明なトークン情報: " +++ token))).

Definition GetMyNumber (pin : string) : M (string * option error) :=
  let fail := fun e : error => ("", Some e) in
  check NewReader else fail ;;
  defer_Finalize (
    SetDebug (Debug L) ;;;
    check Connect else fail ;;
    SelectCardInputHelperAP ;;;
    SelectEF "00 11" ;;;
    check Verify pin else fail ;;
    SelectEF "00 01" ;;;
    data <- ReadBinary 16 ;;
    tail <- slice_from data 1 ;;
    let mynumber := Unmarshal L tail in
    ret (string_of_bytes (Bytes mynumber), None)).

(** The loop of [GetAttrInfo] over [attr], with [n] elements left. *)
Fixpoint GetAttrInfo_loop (n : nat) (data : list Z) (offset : Z)
  : M (list RawValue) :=
  match n with
  | O => ret []
  | S n' =>
      tail <- slice_from data offset ;;
      let a := Unmarshal L tail in
      rest <- GetAttrInfo_loop n' data (wrap16 (offset + wrap16 (len (FullBytes a)))) ;;
      ret (a :: rest)
  end.

Definition attr_Bytes (attr : list RawValue) (i : nat) : list Z :=
  Bytes (nth i attr (mkRawValue [] [])).

(** The result map is given by its five entries. *)
Definition GetAttrInfo (pin : string)
  : M (option (list (string * string)) * option error) :=
  let fail := fun e : error => (None, Some e) in
  check NewReader else fail ;;
  defer_Finalize (
    SetDebug (Debug L) ;;;
    check Connect else fail ;;
    SelectCardInputHelperAP ;;;
    SelectEF "00 11" ;;;
    check Verify pin else fail ;;
    SelectEF "00 02" ;;;
    data <- ReadBinary 7 ;;
    if negb (len data =? 7) then ret (fail "Error at ReadBinary()")
    else
      let '(err, size, offset) := Parse L data in
      match err with
      | Some e => ret (fail e)
      | None =>
          data <- ReadBinary size ;;
          attr <- GetAttrInfo_loop 5 data offset ;;
          ret (Some [ ("header", fmt_spX (attr_Bytes attr 0));
                      ("name", string_of_bytes (attr_Bytes attr 1));
                      ("address", string_of_bytes (attr_Bytes attr 2));
                      ("birth", string_of_bytes (attr_Bytes attr 3));
                      ("sex", string_of_bytes (attr_Bytes attr 4)) ],
               None)
      end).

Definition Change4DigitPin (pin newpin pintype : string) : M (option error) :=
  match Validate4DigitPin L pin with
  | Some e => ret (Some e)
  | None =>
  match Validate4DigitPin L newpin with
  | Some e => ret (Some e)
  | None =>
      check NewReader else Some ;;
      defer_Finalize (
        SetDebug (Debug L) ;;;
        check Connect else Some ;;
        (if String.eqb pintype "CARD_INPUT_HELPER" then
           SelectCardInputHelperAP ;;; SelectEF "00 11" ;;; ret tt
         else if String.eqb pintype "JPKI_AUTH" then
           SelectJPKIAP ;;; SelectEF "00 18" ;;; ret tt
         else ret tt) ;;;
        check Verify pin else Some ;;
        res <- ChangePin newpin ;;
        if negb res then ret (Some "PINの変更に失敗しました")
        else ret None)
  end end.

Definition ChangeCardInputHelperPin (pin newpin : string) : M (option error) :=
  Change4DigitPin pin newpin "CARD_INPUT_HELPER".

Definition ChangeJPKIAuthPin (pin newpin : string) : M (option error) :=
  Change4DigitPin pin newpin "JPKI_AUTH".

Definition ChangeJPKISignPin (pin newpin : string) : M (option error) :=
  let pin := ToUpper L pin in
  match ValidateJPKISignPassword L pin with
  | Some e => ret (Some e)
  | None =>
  let newpin := ToUpper L newpin in
  match ValidateJPKISignPassword L newpin with
  | Some e => ret (Some e)
  | None =>
      check NewReader else Some ;;
      defer_Finalize (
        SetDebug (Debug L) ;;;
        check Connect else Some ;;
        SelectJPKIAP ;;;
        SelectEF "00 1B" ;;;
        check Verify pin else Some ;;
        res <- ChangePin newpin ;;
        if negb res then ret (Some "PINの変更に失敗しました")
        else ret None)
  end end.

Definition GetJPKICert (efid pin : string)
  : M (option Certificate * option error) :=
  let fail := fun e : error => (None, Some e) in
  check NewReader else fail ;;
  defer_Finalize (
    SetDebug (Debug L) ;;;
    check Connect else fail ;;
    check SelectJPKIAP else fail ;;
    check (if negb (String.eqb pin "") then VerifySignPin pin else ret None)
      else fail ;;
    '(cert, err) <- ReadCertificate efid ;;
    ret (cert, None)).

Definition GetJPKIAuthCert := GetJPKICert "00 0A" "".
Definition GetJPKIAuthCACert := GetJPKICert "00 0B" "".
Definition GetJPKISignCert (pass : string) := GetJPKICert "00 01" pass.
Definition GetJPKISignCACert := GetJPKICert "00 02" "".

Definition Public (self : JPKISignSigner) : list Z := pubkey self.

(** [JPKISignSigner.Sign]; [hash] is [opts.HashFunc()]. *)
Definition Sign (self : JPKISignSigner) (digest : list Z) (hash : Z)
  : M (list Z * option error) :=
  let digestInfo := makeDigestInfo L hash digest in
  let fail := fun e : error => ([], Some e) in
  check NewReader else fail ;;
  defer_Finalize (
    SetDebug (Debug L) ;;;
    check Connect else fail ;;
    SelectJPKIAP ;;;
    SelectEF "00 1B" ;;;
    check Verify (pin self) else fail ;;
    SelectEF "00 1A" ;;;
    '(signature, err) <- Signature digestInfo ;;
    match err with
    | Some e => ret (fail e)
    | None => ret (signature, None)
    end).

Definition GetDigestOID (md : string) : ObjectIdentifier * option error :=
  let u := ToUpper L md in
  if String.eqb u "SHA1" then (OIDDigestAlgorithmSHA1, None)
  else if String.eqb u "SHA256" then (OIDDigestAlgorithmSHA256, None)
  else if String.eqb u "SHA384" then (OIDDigestAlgorithmSHA384, None)
  else if String.eqb u "SHA512" then (OIDDigestAlgorithmSHA512, None)
  else ([], Some ("サポートされていないハッシュアルゴリズムです: " +++ md)).

Definition writeCms (out : string) (signed : list Z) (form : string)
  : M (option error) :=
  let body : M (option error) :=
    let u := ToUpper L form in
    if String.eqb u "PEM" then
      check call (fun log => pemEncode W log "PKCS7" signed) (CPemEncode "PKCS7" signed)
        else Some ;;
      ret None
    else if String.eqb u "DER" then
      check call (fun log => write W log signed) (CWrite signed) else Some ;;
      ret None
    else ret None in
  if String.eqb out "" then body
  else
    err <- call (fun log => openFile W log out) (COpenFile out) ;;
    r <- (match err with
          | Some e => ret (Some e)
          | None => body
          end) ;;
    call (fun _ => tt) CClose ;;;
    ret r.

(** [AddSigner] of the CMS builder: it asks the signer for a signature
    of the digest it computed and stores it. *)
Definition pkcs7_AddSigner (sd : SignedData L) (cert : Certificate)
           (privkey : JPKISignSigner) : M (SignedData L * option error) :=
  let '(hash, digest) := pkcs7_toSign L sd cert in
  '(sig, err) <- Sign privkey digest hash ;;
  match err with
  | Some e => ret (sd, Some e)
  | None => ret (pkcs7_addSignature L sd cert sig)
  end.

Definition CmsSignJPKISign (pin input out : string) (opts : CmsSignOpts)
  : M (option error) :=
  match GetDigestOID (Hash opts) with
  | (_, Some e) => ret (Some e)
  | (digest, None) =>
      '(content, err) <- call (fun log => readFile W log input) (CReadFile input) ;;
      match err with
      | Some e => ret (Some e)
      | None =>
          '(cert, err) <- GetJPKISignCert pin ;;
          match err, cert with
          | Some e, _ => ret (Some e)
          | None, None => panic "nil pointer dereference"
          | None, Some cert =>
              let privkey := mkJPKISignSigner pin (PublicKey cert) in
              match pkcs7_NewSignedData L content with
              | None => panic "nil pointer dereference"
              | Some toBeSigned =>
                  let toBeSigned := pkcs7_SetDigestAlgorithm L toBeSigned digest in
                  '(toBeSigned, err) <- pkcs7_AddSigner toBeSigned cert privkey ;;
                  match err with
                  | Some e => ret (Some e)
                  | None =>
                      let '(signed, err) := pkcs7_Finish L toBeSigned in
                      match err with
                      | Some e => ret (Some e)
                      | None => writeCms out signed (Form opts)
                      end
                  end
              end
          end
      end
  end.

End WithWorld.

End Libmyna.

(** * Vocabulary of the properties *)

Module ReaderSpec.
Import Go Scard Reader.

(** ISO 7816: a length octet of 0 asks for 256 octets. *)
Definition Le_request (le : Z) : Z := if le =? 0 then 256 else le.

(** The commands handed to [card.Transmit], in order. *)
Definition transmitted (t : Trace) : list (list Z) :=
  flat_map (fun e => match e with EvTransmit _ cmd _ _ => [cmd] | _ => [] end) t.

(** The status word a response carries: its last two octets; none (zero)
    when the transmission failed or the response is shorter. *)
Definition response_status (res : list Z) (err : option error) : Z * Z :=
  match err, rev res with
  | None, sw2 :: sw1 :: _ => (sw1, sw2)
  | _, _ => (0, 0)
  end.

(** An exchange with the card whose status word is not 90 00. *)
Definition page_failed (e : Event) : Prop :=
  match e with
  | EvTransmit _ _ res err => response_status res err <> (0x90, 0x00)
  | _ => False
  end.

Definition is_transmit (e : Event) : Prop :=
  match e with
  | EvTransmit _ _ _ _ => True
  | _ => False
  end.

(** The READ BINARY command for [n] octets (1 to 256) at offset [off]. *)
Definition READ_BINARY (chunk : Z * Z) : list Z :=
  let '(off, n) := chunk in [0x00; 0xB0; off / 256; off mod 256; n mod 256].

(** "The transmission error is surfaced to the caller": what [Tx] returns
    after a failed transmission differs from what it returns after any
    transmission that completed. *)
Definition Tx_surfaces_errors : Prop :=
  forall (D D' : Driver) (self : Reader) (apdu : string) (t : Trace),
    snd (Transmit D (Tx_before self apdu t) (card self) (ToBytes apdu)) <> None ->
    snd (Transmit D' (Tx_before self apdu t) (card self) (ToBytes apdu)) = None ->
    fst (Tx D self apdu t) <> fst (Tx D' self apdu t).

(** A card that answers every READ BINARY with success and exactly the
    number of octets asked for. *)
Definition exact_card (D : Driver) : Prop :=
  forall t c p1 p2 le, 0 <= le < 256 ->
    exists data,
      Transmit D t c [0x00; 0xB0; p1; p2; le] = (data ++ [0x90; 0x00], None) /\
      len data = Le_request le.

(** ceil(size / chunk). *)
Definition ceil_div (size chunk : Z) : Z := (size + chunk - 1) / chunk.

(** The pages of a read of [size] octets from [pos] on, as (offset,
    number of octets): 256 octets each, the last one what remains. *)
Fixpoint pages (n : nat) (pos size : Z) : list (Z * Z) :=
  match n with
  | O => []
  | S n' =>
      if pos <? size then
        let k := Z.min 256 (size - pos) in (pos, k) :: pages n' (pos + k) size
      else []
  end.

Definition is_stdout (e : Event) : Prop :=
  match e with
  | EvStdout _ => True
  | _ => False
  end.

Fixpoint sum (l : list Z) : Z :=
  match l with
  | [] => 0
  | x :: rest => x + sum rest
  end.

(** A poll of the reader that reported neither an error nor a card. *)
Definition poll_absent (e : Event) : bool :=
  match e with
  | EvGetStatusChange rs _ events None =>
      Z.land (EventState (nth 0 (set_events rs events) (mkReaderState "" 0 0)))
             STATE_PRESENT =? 0
  | _ => false
  end.

Definition is_poll (e : Event) : bool :=
  match e with
  | EvGetStatusChange _ _ _ _ => true
  | _ => false
  end.

Definition is_sleep (e : Event) : bool :=
  match e with
  | EvSleep _ => true
  | _ => false
  end.

Definition count (f : Event -> bool) (t : Trace) : nat := List.length (filter f t).

(** Every poll that found no card is followed by the "wait for card..."
    message and a sleep of one second. *)
Fixpoint paced (evs : Trace) : bool :=
  match evs with
  | [] => true
  | e :: rest =>
      if poll_absent e then
        match rest with
        | EvStderr _ :: EvSleep ns :: rest' => (ns =? Second) && paced rest'
        | _ => false
        end
      else paced rest
  end.

(** C1 as the spec words it: whenever a read of [size] octets returns, it
    has issued ceil(size / 255) commands. *)
Definition ReadBinary_pages_of_255 : Prop :=
  forall (D : Driver) (self : Reader) (size : Z) (t : Trace),
    exact_card D -> 0 <= size < 65536 ->
    forall fuel res t',
      ReadBinary D fuel self size t = Some (res, t') ->
      len (transmitted t') = len (transmitted t) + ceil_div size 255.

End ReaderSpec.

(** * Concrete devices and inputs used in the examples *)

Module Scenario.
Import Go Scard ReaderSpec.

Definition reader0 : Reader.Reader := Reader.mkReader "reader 0" false (Some 1).

Definition no_card_status (t : Trace) (rs : list ReaderState) (timeout : Z)
  : list Z * option error := (map (fun _ => 0x0010) rs, None).

Definition connect_ok (t : Trace) (name : string) (share proto : Z)
  : option Card * option error := (Some 1, None).

(** One reader, no card in it, and a card that answers as [transmit]
    says once it is connected to. *)
Definition driver (transmit : Trace -> option Card -> list Z -> list Z * option error)
  : Driver :=
  mkDriver (fun _ => None) (fun _ => (["reader 0"], None))
           no_card_status connect_ok transmit.

(** A card that answers every READ BINARY with as many octets as it was
    asked for, and refuses anything else. *)
Definition exact_driver : Driver :=
  driver
    (fun _ _ cmd =>
       match cmd with
       | [0x00; 0xB0; _; _; le] =>
           (repeat 0xAA (Z.to_nat (Le_request le)) ++ [0x90; 0x00], None)
       | _ => ([0x6D; 0x00], None)
       end).

(** A card that answers success with no data, whatever it is asked. *)
Definition stuck_driver : Driver :=
  driver (fun _ _ _ => ([0x90; 0x00], None)).

(** A transport whose every transmission fails. *)
Definition dead_driver : Driver :=
  driver (fun _ _ _ => ([], Some "transmit failed")).

(** A transport that completes every transmission with an empty response. *)
Definition mute_driver : Driver :=
  driver (fun _ _ _ => ([], None)).

Definition count_transmits (t : Trace) : nat := List.length (transmitted t).

(** A card that serves one page of a read and then answers 6A 82. *)
Definition one_page_driver : Driver :=
  driver
    (fun t _ cmd =>
       match count_transmits t, cmd with
       | O, [0x00; 0xB0; _; _; le] =>
           (repeat 0xAA (Z.to_nat (Le_request le)) ++ [0x90; 0x00], None)
       | _, _ => ([0x6A; 0x82], None)
       end).

(** A card that refuses every command with 6A 82. *)
Definition refusing_driver : Driver :=
  driver (fun _ _ _ => ([0x6A; 0x82], None)).

End Scenario.

Module LibmynaSpec.
Import Go Libmyna.

Definition is_digit (c : ascii) : bool :=
  let n := nat_of_ascii c in ((48 <=? n) && (n <=? 57))%nat.

Definition is_upper_alnum (c : ascii) : bool :=
  let n := nat_of_ascii c in
  (((48 <=? n) && (n <=? 57)) || ((65 <=? n) && (n <=? 90)))%nat.

Fixpoint all_chars (f : ascii -> bool) (s : string) : bool :=
  match s with
  | EmptyString => true
  | String c rest => f c && all_chars f rest
  end.

(** Modelled from the spec: [Validate4DigitPin] is not under src/. It
    accepts exactly 4 ASCII decimal digits and rejects any other length or
    character set (§8). *)
Definition Validate4DigitPin_spec (pin : string) : option error :=
  if (String.length pin =? 4)%nat && all_chars is_digit pin then None
  else Some "PinFormatInvalid".

(** Modelled from the spec: [ValidateJPKISignPassword] is not under src/.
    The signing password is alphanumeric and upper-case (§3); the spec
    leaves its length open, the bounds 6 to 16 stand for it here. *)
Definition ValidateJPKISignPassword_spec (pass : string) : option error :=
  if (6 <=? String.length pass)%nat && (String.length pass <=? 16)%nat
     && all_chars is_upper_alnum pass
  then None else Some "PinFormatInvalid".

(** [strings.ToUpper] on ASCII text. *)
Fixpoint ascii_ToUpper (s : string) : string :=
  match s with
  | EmptyString => EmptyString
  | String c rest =>
      let n := nat_of_ascii c in
      String (if ((97 <=? n) && (n <=? 122))%nat then ascii_of_nat (n - 32) else c)
             (ascii_ToUpper rest)
  end.

(** A DER element with a one-octet tag and a short-form length; the zero
    value when the input does not hold one. *)
Definition der_short (b : list Z) : RawValue :=
  match b with
  | _ :: n :: rest =>
      if (n <? 128) && (n <=? len rest) then
        mkRawValue (firstn (Z.to_nat n) rest) (firstn (2 + Z.to_nat n) b)
      else mkRawValue [] []
  | _ => mkRawValue [] []
  end.

Definition lib0 : Lib :=
  {| Debug := false;
     ToUpper := ascii_ToUpper;
     Validate4DigitPin := Validate4DigitPin_spec;
     ValidateJPKISignPassword := ValidateJPKISignPassword_spec;
     makeDigestInfo := fun _ digest => 0x30 :: digest;
     Unmarshal := der_short;
     Parse := fun data => (None, 2 + index data 1, 2);
     SignedData := list Z;
     pkcs7_NewSignedData := fun content => Some content;
     pkcs7_SetDigestAlgorithm := fun sd _ => sd;
     pkcs7_toSign := fun sd _ => (5, sd);
     pkcs7_addSignature := fun sd _ sig => (sd ++ sig, None);
     pkcs7_Finish := fun sd => (sd, None) |}.

(** A world in which every call succeeds, but for the four answers given. *)
Definition world (verify_answer : option error) (token : string)
           (binary : Z -> list Z)
           (certificate : option Certificate * option error) : World :=
  {| newReader := fun _ => None;
     connect := fun _ => None;
     selectJPKIAP := fun _ => None;
     selectCardInputHelperAP := fun _ => None;
     selectEF := fun _ _ => None;
     verify := fun _ _ => verify_answer;
     readBinary := fun _ size => binary size;
     changePin := fun _ _ => true;
     signature := fun _ digestInfo => (digestInfo, None);
     getToken := fun _ => (token, None);
     verifySignPin := fun _ _ => verify_answer;
     readCertificate := fun _ _ => certificate;
     readFile := fun _ _ => ([0x41], None);
     openFile := fun _ _ => None;
     pemEncode := fun _ _ _ => None;
     write := fun _ _ => None |}.

Definition cert0 : Certificate := mkCertificate [0x30; 0x00] [0x01].

(** The card session of reader.go standing for the one of libmyna: what
    [ReadBinary] of reader.go returns from the given card; nil also when
    the read does not end within 1024 pages. *)
Definition read_through (D : Scard.Driver) (size : Z) : list Z :=
  match Reader.ReadBinary D 1024 Scenario.reader0 size [] with
  | Some (res, _) => res
  | None => []
  end.

(** The PIN is wrong. *)
Definition world_wrong_pin : World :=
  world (Some "暗証番号が間違っています") "JPKIAPICCTOKEN2" (fun _ => []) (Some cert0, None).

(** The card is a legacy (Juki) card. *)
Definition world_legacy_card : World :=
  world None "JPKIAPICCTOKEN" (fun _ => []) (Some cert0, None).

(** The certificate file cannot be read. *)
Definition world_unreadable_cert : World :=
  world None "JPKIAPICCTOKEN2" (fun _ => []) (None, Some "ReadFailed").

(** The card refuses READ BINARY with 6A 82. *)
Definition world_refused_read : World :=
  world None "JPKIAPICCTOKEN2" (read_through Scenario.refusing_driver) (Some cert0, None).

(** The calls that open a session. *)
Definition opening (L : Lib) : Log := [CNewReader; CSetDebug (Debug L); CConnect].

(** The selections that precede the verification of each PIN. *)
Definition helper_pin_file : Log := [CSelectCardInputHelperAP; CSelectEF "00 11"].
Definition auth_pin_file : Log := [CSelectJPKIAP; CSelectEF "00 18"].
Definition sign_pin_file : Log := [CSelectJPKIAP; CSelectEF "00 1B"].

(** The calls on which an operation depends on a verified PIN. *)
Definition is_dependent (c : Call) : bool :=
  match c with
  | CReadBinary _ | CChangePin _ | CSignature _ => true
  | _ => false
  end.

(** Evaluation of an API call, one answer of the outside at a time. *)
Ltac norm_log := repeat rewrite <- app_assoc; cbn [app].

Ltac run_api :=
  cbv beta delta [CheckCard GetMyNumber GetAttrInfo Change4DigitPin ChangeCardInputHelperPin
       ChangeJPKIAuthPin ChangeJPKISignPin GetJPKICert GetJPKIAuthCert GetJPKIAuthCACert
       GetJPKISignCert GetJPKISignCACert Sign
       on_err bind call ret panic defer_Finalize
       NewReader SetDebug Connect SelectJPKIAP SelectCardInputHelperAP SelectEF Verify
       ReadBinary ChangePin Signature GetToken VerifySignPin ReadCertificate];
  cbn beta iota zeta; norm_log.

Ltac answer H :=
  rewrite H; cbn beta iota zeta; cbn [String.eqb Ascii.eqb Bool.eqb negb]; norm_log.

End LibmynaSpec.

(** * Further vocabulary *)

Module ReaderMore.
Import Go Scard Reader ReaderSpec.

Definition octet (b : Z) : Prop := 0 <= b < 256.


(** The data of an exchange with the card: the response without its
    status word; none when the transmission failed. *)
Definition exchange_data (e : Event) : list Z :=
  match e with
  | EvTransmit _ _ res None => firstn (List.length res - 2) res
  | _ => []
  end.


(** A card that never answers a READ BINARY with more octets than asked. *)
Definition never_more (D : Driver) : Prop :=
  forall t c p1 p2 le res,
    0 <= le < 256 ->
    Transmit D t c [0x00; 0xB0; p1; p2; le] = (res, None) ->
    len res <= Le_request le + 2.

(** A card whose successful answers carry at least one octet of data. *)
Definition progressing (D : Driver) : Prop :=
  forall t c cmd res,
    Transmit D t c cmd = (res, None) ->
    response_status res None = (0x90, 0x00) ->
    3 <= len res.

(** A card that answers READ BINARY one octet at a time. *)
Definition trickle_driver : Driver :=
  Scenario.driver
    (fun _ _ cmd =>
       match cmd with
       | [0x00; 0xB0; _; p2; _] => ([p2; 0x90; 0x00], None)
       | _ => ([0x6D; 0x00], None)
       end).

Definition is_release (e : Event) : bool :=
  match e with
  | EvRelease => true
  | _ => false
  end.


(** A reader as [NewReader] leaves it: no card yet. *)
Definition fresh_reader : Reader := mkReader "reader 0" false None.


(** A reader with a card in it, and a driver whose connect fails. *)
Definition unconnectable_driver : Driver :=
  mkDriver (fun _ => None) (fun _ => (["reader 0"], None))
           (fun _ rs _ => (map (fun _ => STATE_PRESENT) rs, None))
           (fun _ _ _ _ => (None, Some "sharing violation"))
           (fun _ _ _ => ([0x6A; 0x82], None)).

End ReaderMore.

Module LibmynaMore.
Import Go Libmyna LibmynaSpec.

(** The state of the card session of one operation. *)
Inductive Session :=
| Closed
| Opened
| Connected.

(** What a call needs of the session and what it makes of it: a reader
    is made from no session and opens one when it succeeds; connecting
    needs an open session that is not connected; commands to the card need
    a connected one; the files are touched with no session open. *)
Definition step (W : World) (log : Log) (s : Session) (c : Call) : option Session :=
  match c with
  | CNewReader =>
      match s with
      | Closed => Some (match newReader W log with None => Opened | Some _ => Closed end)
      | _ => None
      end
  | CSetDebug _ =>
      match s with
      | Closed => None
      | _ => Some s
      end
  | CConnect =>
      match s with
      | Opened => Some (match connect W log with None => Connected | Some _ => Opened end)
      | _ => None
      end
  | CFinalize =>
      match s with
      | Closed => None
      | _ => Some Closed
      end
  | CReadFile _ | COpenFile _ | CPemEncode _ _ | CWrite _ | CClose =>
      match s with
      | Closed => Some Closed
      | _ => None
      end
  | CSelectJPKIAP | CSelectCardInputHelperAP | CSelectEF _ | CVerify _
  | CReadBinary _ | CChangePin _ | CSignature _ | CGetToken
  | CVerifySignPin _ | CReadCertificate _ =>
      match s with
      | Connected => Some Connected
      | _ => None
      end
  end.

(** The session after the calls [calls], made on top of [log]; [None]
    when one of them is made in a state that does not allow it. *)
Fixpoint run (W : World) (log : Log) (s : Session) (calls : Log) : option Session :=
  match calls with
  | [] => Some s
  | c :: rest =>
      match step W log s c with
      | Some s' => run W (log ++ [c]) s' rest
      | None => None
      end
  end.

(** An operation that starts with no session open makes its calls in
    states that allow them and ends with no session open. *)
Definition keeps_protocol {A : Type} (W : World) (m : M A) : Prop :=
  forall l0, exists calls, snd (m l0) = l0 ++ calls /\ run W l0 Closed calls = Some Closed.

Definition is_output (c : Call) : bool :=
  match c with
  | COpenFile _ | CPemEncode _ _ | CWrite _ | CClose => true
  | _ => false
  end.

(** No call that touches the output is made before the card has returned
    a signature without error; [signed] says whether it already has. *)
Fixpoint signed_before_output (W : World) (log : Log) (signed : bool) (calls : Log)
  : bool :=
  match calls with
  | [] => true
  | c :: rest =>
      match c with
      | CSignature d =>
          signed_before_output W (log ++ [c])
            (signed || match snd (signature W log d) with None => true | Some _ => false end)
            rest
      | _ =>
          (negb (is_output c) || signed) && signed_before_output W (log ++ [c]) signed rest
      end
  end.

(** The session of an operation opens: a reader is made and connected. *)
Definition session_opens (L : Lib) (W : World) (l0 : Log) : Prop :=
  newReader W l0 = None /\ connect W (l0 ++ [CNewReader; CSetDebug (Debug L)]) = None.

(** The selection that [Change4DigitPin] makes for a kind of PIN. *)
Definition pin_file_of (pintype : string) : Log :=
  if String.eqb pintype "CARD_INPUT_HELPER" then helper_pin_file
  else if String.eqb pintype "JPKI_AUTH" then auth_pin_file
  else [].

(** A record of five short DER elements, as the attribute file holds it,
    behind a two-octet header. *)
Definition attr_record : list Z :=
  [0x30; 0x0F;
   0x04; 0x01; 0xAA;
   0x0C; 0x01; 0x41;
   0x0C; 0x01; 0x42;
   0x0C; 0x01; 0x43;
   0x0C; 0x01; 0x31].

(** The card serves the attribute file: 7 octets first, then all. *)
Definition world_attributes : World :=
  world None "JPKIAPICCTOKEN2"
    (fun size => firstn (Z.to_nat size) attr_record) (Some cert0, None).

(** The card serves the first 7 octets and then refuses the full read. *)
Definition world_attributes_cut : World :=
  world None "JPKIAPICCTOKEN2"
    (fun size => if size =? 7 then firstn 7 attr_record else []) (Some cert0, None).

(** The output file cannot be opened. *)
Definition world_no_output : World :=
  {| newReader := fun _ => None;
     connect := fun _ => None;
     selectJPKIAP := fun _ => None;
     selectCardInputHelperAP := fun _ => None;
     selectEF := fun _ _ => None;
     verify := fun _ _ => None;
     readBinary := fun _ _ => [];
     changePin := fun _ _ => true;
     signature := fun _ digestInfo => (digestInfo, None);
     getToken := fun _ => ("JPKIAPICCTOKEN2", None);
     verifySignPin := fun _ _ => None;
     readCertificate := fun _ _ => (Some cert0, None);
     readFile := fun _ _ => ([0x41], None);
     openFile := fun _ _ => Some "permission denied";
     pemEncode := fun _ _ _ => None;
     write := fun _ _ => None |}.

(** Case analysis over every answer of the outside and every branch. *)
Ltac api_cases :=
  cbv beta delta [CheckCard GetMyNumber GetAttrInfo Change4DigitPin ChangeCardInputHelperPin
       ChangeJPKIAuthPin ChangeJPKISignPin GetJPKICert GetJPKIAuthCert GetJPKIAuthCACert
       GetJPKISignCert GetJPKISignCACert Sign CmsSignJPKISign writeCms pkcs7_AddSigner
       on_err bind call ret panic defer_Finalize slice_from
       NewReader SetDebug Connect SelectJPKIAP SelectCardInputHelperAP SelectEF Verify
       ReadBinary ChangePin Signature GetToken VerifySignPin ReadCertificate];
  cbn beta iota zeta; cbn [GetAttrInfo_loop];
  cbv beta delta [bind ret panic slice_from]; cbn beta iota zeta; norm_log;
  repeat (match goal with
          | |- context [match ?x with _ => _ end] =>
              lazymatch x with
              | context [match _ with _ => _ end] => fail
              | _ => destruct x eqn:?
              end
          end; cbn beta iota zeta; norm_log).

Ltac api_protocol :=
  eexists; split;
    [cbn [snd]; norm_log; first [reflexivity | symmetry; apply app_nil_r] |];
  repeat (cbn [run step]; norm_log;
          try match goal with
              | H : ?x = _ |- context [?x] => rewrite H
              end);
  reflexivity.

Ltac api_signed :=
  eexists; split;
    [cbn [snd]; norm_log; first [reflexivity | symmetry; apply app_nil_r] |];
  repeat (cbn [signed_before_output is_output negb orb andb snd]; norm_log;
          try match goal with
              | H : ?x = _ |- context [?x] => rewrite H
              end);
  reflexivity.

End LibmynaMore.

(** * Properties of reader.go *)

Module ReaderFacts.
Import Go Scard Reader ReaderSpec.

(** ** Hexadecimal text and the bytes it stands for *)

Lemma hexdigit_cases (d : Z) :
  0 <= d < 16 ->
  hexval (hexdigit d) = Some d /\ Ascii.eqb (hexdigit d) " " = false.
Proof.
  intros H.
  assert (E : d = 0 \/ d = 1 \/ d = 2 \/ d = 3 \/ d = 4 \/ d = 5 \/ d = 6 \/ d = 7 \/
              d = 8 \/ d = 9 \/ d = 10 \/ d = 11 \/ d = 12 \/ d = 13 \/ d = 14 \/ d = 15)
    by lia.
  repeat (destruct E as [E | E]; [subst d; split; reflexivity |]).
  subst d; split; reflexivity.
Qed.

Lemma ToBytes_octet (a : Z) (rest : string) :
  0 <= a < 256 ->
  ToBytes (fmt_02X a +++ rest) = a :: ToBytes rest.
Proof.
  intros H. unfold ToBytes, fmt_02X.
  destruct (hexdigit_cases (a / 16)) as [Hh Hs]; [split; [apply Z.div_pos | apply Z.div_lt_upper_bound]; lia |].
  destruct (hexdigit_cases (a mod 16)) as [Hl Hs']; [apply Z.mod_pos_bound; lia |].
  cbn [String.append remove_spaces]. rewrite Hs, Hs'.
  cbn [hex_decode]. rewrite Hh, Hl.
  f_equal. pose proof (Z.div_mod a 16). lia.
Qed.

Lemma ToBytes_blank (rest : string) : ToBytes (" " +++ rest) = ToBytes rest.
Proof. reflexivity. Qed.

Lemma octet_hi (pos : Z) : 0 <= pos < 65536 -> Z.land (Z.shiftr pos 8) 0xFF = pos / 256.
Proof.
  intros H. change 0xFF with (Z.ones 8).
  rewrite Z.land_ones by lia. rewrite Z.shiftr_div_pow2 by lia.
  change (2 ^ 8) with 256. apply Z.mod_small.
  split; [apply Z.div_pos | apply Z.div_lt_upper_bound]; lia.
Qed.

Lemma octet_lo (pos : Z) : Z.land pos 0xFF = pos mod 256.
Proof. change 0xFF with (Z.ones 8). rewrite Z.land_ones by lia. reflexivity. Qed.

(** The bytes of a READ BINARY command: class 00, instruction B0, the
    offset big-endian in P1 P2, then the length octet. *)
Lemma ReadBinary_apdu_bytes (pos l : Z) :
  0 <= pos < 65536 -> 0 <= l < 256 ->
  ToBytes (ReadBinary_apdu pos l) = [0x00; 0xB0; pos / 256; pos mod 256; l].
Proof.
  intros Hp Hl. unfold ReadBinary_apdu.
  rewrite octet_hi, octet_lo by assumption.
  change ("00 B0 " +++ ?s) with (fmt_02X 0x00 +++ " " +++ fmt_02X 0xB0 +++ " " +++ s).
  assert (0 <= pos / 256 < 256)
    by (split; [apply Z.div_pos | apply Z.div_lt_upper_bound]; lia).
  assert (0 <= pos mod 256 < 256) by (apply Z.mod_pos_bound; lia).
  rewrite ToBytes_octet, ToBytes_blank, ToBytes_octet, ToBytes_blank by lia.
  rewrite ToBytes_octet, ToBytes_blank, ToBytes_octet, ToBytes_blank by lia.
  replace (fmt_02X l) with (fmt_02X l +++ "") by (unfold fmt_02X; reflexivity).
  rewrite ToBytes_octet by lia. reflexivity.
Qed.

(** ** Tx *)

Lemma len_app {A} (l1 l2 : list A) : len (l1 ++ l2) = len l1 + len l2.
Proof. unfold len. rewrite length_app. lia. Qed.

Lemma response_status_app (data : list Z) (sw1 sw2 : Z) :
  response_status (data ++ [sw1; sw2]) None = (sw1, sw2).
Proof. unfold response_status. rewrite rev_app_distr. reflexivity. Qed.

Lemma response_status_short (res : list Z) :
  (List.length res < 2)%nat -> response_status res None = (0, 0).
Proof.
  destruct res as [| a [| b res]]; cbn [List.length]; intros H; try reflexivity; lia.
Qed.

(** Every response of two octets or more is some data followed by a
    status word. *)
Lemma response_split (res : list Z) :
  (2 <= List.length res)%nat ->
  exists data sw1 sw2, res = data ++ [sw1; sw2].
Proof.
  intros H.
  destruct (rev res) as [| sw2 [| sw1 r]] eqn:E.
  - apply (f_equal (@List.length Z)) in E. rewrite length_rev in E. cbn in E. lia.
  - apply (f_equal (@List.length Z)) in E. rewrite length_rev in E. cbn in E. lia.
  - exists (rev r), sw1, sw2.
    rewrite <- (rev_involutive res), E. cbn [rev]. rewrite <- app_assoc. reflexivity.
Qed.

Lemma Tx_on_error (D : Driver) (self : Reader) (apdu : string) (t : Trace)
      (res : list Z) (e : error) :
  Transmit D (Tx_before self apdu t) (card self) (ToBytes apdu) = (res, Some e) ->
  Tx D self apdu t =
    ((0, 0, []),
     Tx_before self apdu t ++
       [EvTransmit (card self) (ToBytes apdu) res (Some e)] ++
       [EvStdout ("err: " +++ e +++ LF)]).
Proof.
  intros H. unfold Tx. rewrite H.
  rewrite <- app_assoc. reflexivity.
Qed.

Lemma Tx_on_response (D : Driver) (self : Reader) (apdu : string) (t : Trace)
      (data : list Z) (sw1 sw2 : Z) :
  Transmit D (Tx_before self apdu t) (card self) (ToBytes apdu)
    = (data ++ [sw1; sw2], None) ->
  Tx D self apdu t =
    ((sw1, sw2, data),
     Tx_before self apdu t ++
       [EvTransmit (card self) (ToBytes apdu) (data ++ [sw1; sw2]) None] ++
       (if verbose self then [EvStdout (dump (data ++ [sw1; sw2]))] else [])).
Proof.
  intros H. unfold Tx. rewrite H.
  set (before := Tx_before self apdu t). set (cmd := ToBytes apdu).
  assert (Ht : forall x : Z * Z * list Z,
     (x, if verbose self
         then (before ++ [EvTransmit (card self) cmd (data ++ [sw1; sw2]) None]) ++
              [EvStdout (dump (data ++ [sw1; sw2]))]
         else before ++ [EvTransmit (card self) cmd (data ++ [sw1; sw2]) None]) =
     (x, before ++ [EvTransmit (card self) cmd (data ++ [sw1; sw2]) None] ++
         (if verbose self then [EvStdout (dump (data ++ [sw1; sw2]))] else []))).
  { intros x. destruct (verbose self); [rewrite <- app_assoc | ]; reflexivity. }
  rewrite len_app. change (len [sw1; sw2]) with 2.
  destruct data as [| d data'].
  - cbn [app len List.length]. change (Z.of_nat 0 + 2 =? 2) with true. cbn iota.
    apply Ht.
  - assert (Hl : 0 < len (d :: data')) by (unfold len; cbn [List.length]; lia).
    destruct (len (d :: data') + 2 =? 2) eqn:E2; [apply Z.eqb_eq in E2; lia |].
    destruct (len (d :: data') + 2 >? 2) eqn:E3;
      [| rewrite Z.gtb_ltb in E3; apply Z.ltb_ge in E3; lia].
    rewrite <- Ht. f_equal. unfold index.
    replace (Z.to_nat (len (d :: data') + 2 - 2)) with (List.length (d :: data'))
      by (unfold len; lia).
    replace (Z.to_nat (len (d :: data') + 2 - 1)) with (S (List.length (d :: data')))
      by (unfold len; lia).
    rewrite !app_nth2 by lia.
    rewrite Nat.sub_diag.
    replace (S (List.length (d :: data')) - List.length (d :: data'))%nat with 1%nat by lia.
    rewrite firstn_app, Nat.sub_diag, firstn_all. cbn [firstn nth].
    rewrite app_nil_r. reflexivity.
Qed.

Lemma Tx_on_short (D : Driver) (self : Reader) (apdu : string) (t : Trace)
      (res : list Z) :
  Transmit D (Tx_before self apdu t) (card self) (ToBytes apdu) = (res, None) ->
  (List.length res < 2)%nat ->
  fst (Tx D self apdu t) = (0, 0, []).
Proof.
  intros H Hl. unfold Tx. rewrite H.
  destruct res as [| a [| b r]]; cbn [List.length] in Hl; try lia; reflexivity.
Qed.

(** C4, as amended. For every transmission by [Tx]: a response that is
    some data followed by two octets yields those two octets as the status
    word and the data before them (no data when the response is exactly
    two octets); a response of fewer than two octets yields a zero status
    word and no data; and so does a failed transmission, whose error is
    written to standard output and is not part of what [Tx] returns. *)
Theorem Tx_status_word_and_data
  (D : Driver) (self : Reader) (apdu : string) (t : Trace) :
  let before := Tx_before self apdu t in
  let r := Transmit D before (card self) (ToBytes apdu) in
  let v := fst (Tx D self apdu t) in
  match snd r with
  | None =>
      (forall sw1 sw2, fst r = [sw1; sw2] -> v = (sw1, sw2, [])) /\
      (forall data sw1 sw2, fst r = data ++ [sw1; sw2] -> v = (sw1, sw2, data)) /\
      ((List.length (fst r) < 2)%nat -> v = (0, 0, [])) /\
      (fst v, snd v) = (response_status (fst r) None, firstn (List.length (fst r) - 2) (fst r))
  | Some e =>
      v = (0, 0, []) /\
      snd (Tx D self apdu t) =
        before ++ [EvTransmit (card self) (ToBytes apdu) (fst r) (Some e);
                   EvStdout ("err: " +++ e +++ LF)]
  end.
Proof.
  intros before r v.
  destruct r as [res err] eqn:Er. cbn [fst snd].
  destruct err as [e |].
  - subst v before. rewrite (Tx_on_error D self apdu t res e Er). split; reflexivity.
  - assert (Hdata : forall data sw1 sw2, res = data ++ [sw1; sw2] -> v = (sw1, sw2, data)).
    { intros data sw1 sw2 ->. subst v.
      rewrite (Tx_on_response D self apdu t data sw1 sw2 Er). reflexivity. }
    assert (Hshort : (List.length res < 2)%nat -> v = (0, 0, [])).
    { intros Hl. subst v. exact (Tx_on_short D self apdu t res Er Hl). }
    repeat split.
    + intros sw1 sw2 ->. exact (Hdata [] sw1 sw2 eq_refl).
    + exact Hdata.
    + exact Hshort.
    + destruct (Nat.lt_ge_cases (List.length res) 2) as [Hl | Hl].
      * rewrite (Hshort Hl), (response_status_short res Hl).
        replace (List.length res - 2)%nat with 0%nat by lia. reflexivity.
      * destruct (response_split res Hl) as (data & sw1 & sw2 & ->).
        rewrite (Hdata data sw1 sw2 eq_refl), response_status_app.
        rewrite length_app. cbn [List.length fst snd].
        replace (List.length data + 2 - 2)%nat with (List.length data) by lia.
        rewrite firstn_app, Nat.sub_diag, firstn_all. cbn [firstn].
        rewrite app_nil_r. reflexivity.
Qed.

(** C4 at two concrete cards: two octets of data with 90 00, and a bare
    6A 82. *)
Lemma Tx_status_word_and_data_witness :
  fst (Tx Scenario.exact_driver Scenario.reader0 "00 B0 00 00 02" []) =
    (0x90, 0x00, [0xAA; 0xAA]) /\
  fst (Tx Scenario.refusing_driver Scenario.reader0 "00 B0 00 00 02" []) =
    (0x6A, 0x82, []).
Proof.
  pose proof (Tx_status_word_and_data Scenario.exact_driver Scenario.reader0
                "00 B0 00 00 02" []) as (_ & H & _).
  pose proof (Tx_status_word_and_data Scenario.refusing_driver Scenario.reader0
                "00 B0 00 00 02" []) as (H' & _).
  split.
  - apply (H [0xAA; 0xAA] 0x90 0x00). reflexivity.
  - apply (H' 0x6A 0x82). reflexivity.
Defined.

(** C4, as stated, fails: what [Tx] returns when the transmission fails is
    what it returns when the transport delivers an empty response, so the
    caller cannot tell that there was an error. *)
Lemma Tx_swallows_error : ~ Tx_surfaces_errors.
Proof.
  intros H.
  apply (H Scenario.dead_driver Scenario.mute_driver Scenario.reader0 "00 B0 00 00 10" []).
  - discriminate.
  - reflexivity.
  - reflexivity.
Qed.

(** ** ReadBinary *)

Lemma transmitted_app (t1 t2 : Trace) :
  transmitted (t1 ++ t2) = transmitted t1 ++ transmitted t2.
Proof. unfold transmitted. apply flat_map_app. Qed.

Lemma Tx_before_events (self : Reader) (apdu : string) (t : Trace) :
  exists pre, Tx_before self apdu t = t ++ pre /\ Forall is_stdout pre.
Proof.
  unfold Tx_before. destruct (verbose self).
  - eexists. split; [reflexivity |]. repeat constructor.
  - exists []. rewrite app_nil_r. split; constructor.
Qed.

(** What one call of [Tx] adds to the trace: one exchange with the card,
    between echoes on standard output; the status word it returns is the
    one of that exchange. *)
Lemma Tx_events (D : Driver) (self : Reader) (apdu : string) (t : Trace) :
  exists pre res err post,
    snd (Tx D self apdu t) =
      t ++ pre ++ EvTransmit (card self) (ToBytes apdu) res err :: post /\
    Forall is_stdout pre /\ Forall is_stdout post /\
    (fst (fst (fst (Tx D self apdu t))), snd (fst (fst (Tx D self apdu t))))
      = response_status res err.
Proof.
  destruct (Tx_before_events self apdu t) as (pre & Hpre & Fpre).
  destruct (Transmit D (Tx_before self apdu t) (card self) (ToBytes apdu))
    as [res [e |]] eqn:E.
  - exists pre, res, (Some e), [EvStdout ("err: " +++ e +++ LF)].
    rewrite (Tx_on_error D self apdu t res e E), Hpre. cbn [fst snd].
    rewrite <- app_assoc. repeat split; auto. repeat constructor.
  - destruct (Nat.lt_ge_cases (List.length res) 2) as [Hl | Hl].
    + exists pre, res, None, (if verbose self then [EvStdout (dump res)] else []).
      pose proof (Tx_on_short D self apdu t res E Hl) as Hv.
      rewrite Hv, (response_status_short res Hl). cbn [fst snd].
      repeat split; auto.
      * unfold Tx. rewrite E, Hpre.
        destruct res as [| a [| b r]]; cbn [List.length] in Hl; try lia;
          cbn [len List.length Z.of_nat Z.eqb Z.gtb Z.compare Pos.compare Pos.compare_cont Pos.of_succ_nat Pos.succ snd];
          destruct (verbose self); rewrite <- ?app_assoc; try reflexivity;
          rewrite app_nil_r; reflexivity.
      * destruct (verbose self); repeat constructor.
    + destruct (response_split res Hl) as (data & sw1 & sw2 & ->).
      exists pre, (data ++ [sw1; sw2]), None,
        (if verbose self then [EvStdout (dump (data ++ [sw1; sw2]))] else []).
      rewrite (Tx_on_response D self apdu t data sw1 sw2 E), Hpre, response_status_app.
      cbn [fst snd]. rewrite <- app_assoc. repeat split; auto.
      destruct (verbose self); repeat constructor.
Qed.

Lemma status_check (sw1 sw2 : Z) :
  negb (sw1 =? 0x90) || negb (sw2 =? 0x00) = true <-> (sw1, sw2) <> (0x90, 0x00).
Proof.
  destruct (Z.eqb_spec sw1 0x90) as [-> | H1]; destruct (Z.eqb_spec sw2 0x00) as [-> | H2];
    cbn [negb orb]; split; intros H; try congruence; try reflexivity;
    try (intros E; inversion E; congruence);
    try (contradiction H; reflexivity).
Qed.

Lemma ReadBinary_loop_extends (D : Driver) (self : Reader) (size : Z) :
  forall fuel pos res t r t',
    ReadBinary_loop D fuel self size pos res t = Some (r, t') ->
    exists evs, t' = t ++ evs.
Proof.
  induction fuel as [| fuel IH]; intros pos res t r t' H; [discriminate |].
  cbn [ReadBinary_loop] in H.
  destruct (pos <? size).
  - destruct (Tx D self (ReadBinary_apdu pos (ReadBinary_length size pos)) t)
      as [[[sw1 sw2] data] t1] eqn:ETx.
    destruct (Tx_events D self (ReadBinary_apdu pos (ReadBinary_length size pos)) t)
      as (pre & rs & err & post & Ht & _).
    rewrite ETx in Ht. cbn [snd] in Ht.
    destruct (negb (sw1 =? 0x90) || negb (sw2 =? 0x00)).
    + inversion H; subst. eexists; reflexivity.
    + destruct (IH _ _ _ _ _ H) as [evs ->]. subst t1.
      eexists. rewrite <- app_assoc. reflexivity.
  - inversion H; subst. exists []. symmetry; apply app_nil_r.
Qed.

(** A result of the loop does not depend on the bound, once it is enough. *)
Lemma ReadBinary_loop_more_fuel (D : Driver) (self : Reader) (size : Z) :
  forall fuel pos res t x,
    ReadBinary_loop D fuel self size pos res t = Some x ->
    forall fuel', (fuel <= fuel')%nat ->
      ReadBinary_loop D fuel' self size pos res t = Some x.
Proof.
  induction fuel as [| fuel IH]; intros pos res t x H fuel' Hle; [discriminate |].
  destruct fuel' as [| fuel']; [lia |].
  cbn [ReadBinary_loop] in *.
  destruct (pos <? size); [| exact H].
  destruct (Tx D self (ReadBinary_apdu pos (ReadBinary_length size pos)) t)
    as [[[sw1 sw2] data] t1].
  destruct (negb (sw1 =? 0x90) || negb (sw2 =? 0x00)); [exact H |].
  apply (IH _ _ _ _ H). lia.
Qed.

Lemma Forall_stdout_not_transmit (evs : Trace) :
  Forall is_stdout evs -> Forall (fun e => ~ is_transmit e) evs.
Proof.
  apply Forall_impl. intros [] H; cbn in *; tauto.
Qed.

Lemma Forall_stdout_not_failed (evs : Trace) :
  Forall is_stdout evs -> ~ Exists page_failed evs.
Proof.
  intros HF HE. apply Exists_exists in HE. destruct HE as (e & Hin & Hf).
  rewrite Forall_forall in HF. specialize (HF e Hin).
  destruct e; cbn in *; tauto.
Qed.

(** C3. At every state of the paging loop, a page whose status word is not
    90 00 makes [ReadBinary] return nil at once, whatever it had
    accumulated; hence a read in which some page failed returns nil, and
    the failed page is its last exchange with the card. *)
Theorem ReadBinary_aborts_on_failed_page (D : Driver) (self : Reader) (size : Z) :
  (forall fuel pos res t,
      pos < size ->
      let tx := Tx D self (ReadBinary_apdu pos (ReadBinary_length size pos)) t in
      (fst (fst (fst tx)), snd (fst (fst tx))) <> (0x90, 0x00) ->
      ReadBinary_loop D (S fuel) self size pos res t = Some ([], snd tx)) /\
  (forall fuel pos res t r evs,
      ReadBinary_loop D fuel self size pos res t = Some (r, t ++ evs) ->
      Exists page_failed evs ->
      r = [] /\
      exists evs1 e evs2,
        evs = evs1 ++ e :: evs2 /\ page_failed e /\
        Forall (fun e' => ~ is_transmit e') evs2).
Proof.
  split.
  - intros fuel pos res t Hpos tx Hsw. subst tx.
    cbn [ReadBinary_loop].
    destruct (Z.ltb_spec pos size) as [_ | Hge]; [| lia].
    destruct (Tx D self (ReadBinary_apdu pos (ReadBinary_length size pos)) t)
      as [[[sw1 sw2] data] t1].
    cbn [fst snd] in *. apply status_check in Hsw. rewrite Hsw. reflexivity.
  - induction fuel as [| fuel IH]; intros pos res t r evs H HE; [discriminate |].
    cbn [ReadBinary_loop] in H.
    destruct (pos <? size).
    + destruct (Tx D self (ReadBinary_apdu pos (ReadBinary_length size pos)) t)
        as [[[sw1 sw2] data] t1] eqn:ETx.
      destruct (Tx_events D self (ReadBinary_apdu pos (ReadBinary_length size pos)) t)
        as (pre & rs & err & post & Ht & Fpre & Fpost & Hst).
      rewrite ETx in Ht, Hst. cbn [fst snd] in Ht, Hst.
      destruct (negb (sw1 =? 0x90) || negb (sw2 =? 0x00)) eqn:Echk.
      * inversion H as [[Hr Ht1]]. split; [reflexivity |].
        rewrite Ht in Ht1. apply app_inv_head in Ht1. subst evs.
        exists pre, (EvTransmit (card self)
                       (ToBytes (ReadBinary_apdu pos (ReadBinary_length size pos))) rs err), post.
        split; [reflexivity |]. split.
        -- cbn [page_failed]. rewrite <- Hst. apply status_check. exact Echk.
        -- apply Forall_stdout_not_transmit. exact Fpost.
      * destruct (ReadBinary_loop_extends D self size _ _ _ _ _ _ H) as [evs' Hevs].
        rewrite Ht in Hevs. rewrite <- !app_assoc in Hevs. apply app_inv_head in Hevs.
        rewrite Hevs in HE.
        assert (Hok : response_status rs err = (0x90, 0x00)).
        { rewrite <- Hst.
          destruct (Z.eqb_spec sw1 0x90) as [-> |]; destruct (Z.eqb_spec sw2 0x00) as [-> |];
            cbn in Echk; congruence. }
        assert (HE' : Exists page_failed evs').
        { apply Exists_app in HE. destruct HE as [HE | HE].
          - exfalso. exact (Forall_stdout_not_failed pre Fpre HE).
          - cbn [app] in HE. apply Exists_cons in HE. destruct HE as [HE | HE].
            + cbn [page_failed] in HE. contradiction.
            + apply Exists_app in HE. destruct HE as [HE | HE]; [| exact HE].
              exfalso. exact (Forall_stdout_not_failed post Fpost HE). }
        assert (H' : ReadBinary_loop D fuel self size
                       (wrap16 (pos + wrap16 (len data))) (res ++ data) t1
                     = Some (r, t1 ++ evs')).
        { rewrite H. f_equal. f_equal. rewrite Ht.
          rewrite <- !app_assoc. f_equal. exact Hevs. }
        destruct (IH _ _ _ _ _ H' HE') as (Hr & evs1 & e & evs2 & He & Hf & Hn).
        split; [exact Hr |].
        exists (pre ++ EvTransmit (card self)
                  (ToBytes (ReadBinary_apdu pos (ReadBinary_length size pos))) rs err
                  :: post ++ evs1), e, evs2.
        split; [| split; assumption].
        rewrite Hevs, He. rewrite <- !app_assoc. cbn [app]. rewrite <- !app_assoc.
        reflexivity.
    + inversion H as [[Hr Ht1]].
      rewrite <- (app_nil_r t) in Ht1 at 1. apply app_inv_head in Ht1. subst evs.
      inversion HE.
Qed.

(** Against a card that keeps answering 90 00 with no data, the loop is
    back in the state it started from after every iteration. *)
Lemma ReadBinary_loop_stuck (self : Reader) (size : Z) :
  0 < size ->
  forall fuel res t,
    ReadBinary_loop Scenario.stuck_driver fuel self size 0 res t = None.
Proof.
  intros Hsize. induction fuel as [| fuel IH]; intros res t; [reflexivity |].
  cbn [ReadBinary_loop].
  destruct (Z.ltb_spec 0 size) as [_ | Hge]; [| lia].
  rewrite (Tx_on_response Scenario.stuck_driver self _ t [] 0x90 0x00 eq_refl).
  change (negb (0x90 =? 0x90) || negb (0x00 =? 0x00)) with false. cbn iota.
  change (wrap16 (0 + wrap16 (len (@nil Z)))) with 0.
  apply IH.
Qed.

(** C10 fails on the code: a 16-octet read from a card that answers every
    READ BINARY with 90 00 and no data never ends, whatever the number of
    iterations allowed. *)
Theorem ReadBinary_spins_on_empty_success :
  forall fuel : nat,
    ReadBinary Scenario.stuck_driver fuel Scenario.reader0 16 [] = None.
Proof.
  intros fuel. unfold ReadBinary. apply ReadBinary_loop_stuck. lia.
Qed.

(** ** Paging against a card that returns what it is asked for *)

Lemma ReadBinary_length_min (size pos : Z) :
  0 <= pos < size -> size < 65536 ->
  ReadBinary_length size pos = Z.min 256 (size - pos) mod 256 /\
  Le_request (ReadBinary_length size pos) = Z.min 256 (size - pos).
Proof.
  intros Hp Hs. unfold ReadBinary_length, Le_request, wrap16, wrap8.
  rewrite (Z.mod_small (size - pos) 65536) by lia.
  destruct (Z.gtb_spec (size - pos) 0xFF) as [Hgt | Hle].
  - rewrite Z.min_l by lia. split; reflexivity.
  - rewrite Z.min_r by lia. rewrite (Z.mod_small (size - pos) 256) by lia.
    destruct (Z.eqb_spec (size - pos) 0); [lia |]. split; reflexivity.
Qed.

Lemma Tx_exact (D : Driver) (self : Reader) (pos l : Z) (t : Trace) :
  exact_card D -> 0 <= pos < 65536 -> 0 <= l < 256 ->
  exists data t',
    Tx D self (ReadBinary_apdu pos l) t = ((0x90, 0x00, data), t') /\
    len data = Le_request l /\
    transmitted t' = transmitted t ++ [[0x00; 0xB0; pos / 256; pos mod 256; l]].
Proof.
  intros HD Hp Hl.
  destruct (HD (Tx_before self (ReadBinary_apdu pos l) t) (card self)
               (pos / 256) (pos mod 256) l Hl) as (data & HT & Hlen).
  rewrite <- (ReadBinary_apdu_bytes pos l Hp Hl) in HT.
  exists data. eexists. split; [exact (Tx_on_response D self _ t data _ _ HT) |].
  split; [exact Hlen |].
  destruct (Tx_before_events self (ReadBinary_apdu pos l) t) as (pre & -> & Fpre).
  rewrite !transmitted_app, (ReadBinary_apdu_bytes pos l Hp Hl).
  assert (Hpre : transmitted pre = []).
  { clear -Fpre. induction Fpre as [| e pre He _ IH]; [reflexivity |].
    destruct e; cbn in He; try contradiction. exact IH. }
  rewrite Hpre, app_nil_r. f_equal.
  destruct (verbose self); reflexivity.
Qed.

Lemma ceil_step (x : Z) : 256 < x -> (x - 256 + 255) / 256 = (x + 255) / 256 - 1.
Proof.
  intros H. replace (x - 256 + 255) with (x + 255 + (-1) * 256) by lia.
  rewrite Z.div_add by lia. lia.
Qed.

Lemma ceil_small (x : Z) : 0 < x <= 256 -> (x + 255) / 256 = 1.
Proof.
  intros H. symmetry. apply (Z.div_unique (x + 255) 256 1 (x - 1)); lia.
Qed.

Lemma ceil_zero (x : Z) : 0 <= x -> (x + 255) / 256 <= 0 -> x = 0.
Proof.
  intros H0 H. destruct (Z.eq_dec x 0) as [| Hn]; [assumption |].
  assert (1 <= (x + 255) / 256) by (apply Z.div_le_lower_bound; lia). lia.
Qed.

Section ExactCard.
Variable D : Driver.
Variable self : Reader.
Variable size : Z.
Hypothesis HD : exact_card D.
Hypothesis Hsize : 0 <= size < 65536.

Lemma ReadBinary_loop_exact :
  forall (n : nat) (pos : Z) (res : list Z) (t : Trace),
    0 <= pos <= size ->
    (size - pos + 255) / 256 <= Z.of_nat n ->
    exists data t',
      ReadBinary_loop D (S n) self size pos res t = Some (res ++ data, t') /\
      len data = size - pos /\
      transmitted t' = transmitted t ++ map READ_BINARY (pages n pos size).
Proof.
  induction n as [| n IH]; intros pos res t Hpos Hn.
  - assert (size - pos = 0) by (apply ceil_zero; [lia | exact Hn]).
    exists [], t. cbn [ReadBinary_loop pages map].
    destruct (Z.ltb_spec pos size); [lia |].
    rewrite !app_nil_r. repeat split. unfold len; cbn; lia.
  - destruct (Z.ltb_spec pos size) as [Hlt | Hge].
    + destruct (ReadBinary_length_min size pos) as [Hl HLe]; [lia | lia |].
      set (k := Z.min 256 (size - pos)) in *.
      assert (Hk : 1 <= k <= 256) by (subst k; lia).
      destruct (Tx_exact D self pos (ReadBinary_length size pos) t HD) as
        (d & t1 & HTx & Hd & Ht1); [lia | rewrite Hl; apply Z.mod_pos_bound; lia |].
      rewrite HLe in Hd.
      assert (Hpos' : wrap16 (pos + wrap16 (len d)) = pos + k).
      { unfold wrap16. rewrite Hd. rewrite (Z.mod_small k) by lia.
        apply Z.mod_small. subst k. lia. }
      destruct (IH (pos + k) (res ++ d) t1) as (data & t' & Hloop & Hdata & Ht').
      * subst k. lia.
      * destruct (Z_le_gt_dec (size - pos) 256) as [Hs | Hb].
        -- replace (size - (pos + k)) with 0 by (subst k; lia).
           change ((0 + 255) / 256) with 0. lia.
        -- replace (size - (pos + k)) with (size - pos - 256) by (subst k; lia).
           rewrite ceil_step by lia. lia.
      * exists (d ++ data), t'.
        change (ReadBinary_loop D (S (S n)) self size pos res t) with
          (if pos <? size then
             let '((sw1, sw2, data), t') :=
               Tx D self (ReadBinary_apdu pos (ReadBinary_length size pos)) t in
             if negb (sw1 =? 0x90) || negb (sw2 =? 0x00) then Some ([], t')
             else ReadBinary_loop D (S n) self size
                    (wrap16 (pos + wrap16 (len data))) (res ++ data) t'
           else Some (res, t)).
        destruct (Z.ltb_spec pos size); [| lia].
        rewrite HTx.
        change (negb (0x90 =? 0x90) || negb (0x00 =? 0x00)) with false. cbn iota.
        rewrite Hpos', Hloop, app_assoc.
        split; [reflexivity |]. split; [rewrite len_app; lia |].
        rewrite Ht', Ht1. cbn [pages]. destruct (Z.ltb_spec pos size); [| lia].
        fold k. cbn [map READ_BINARY]. rewrite <- app_assoc. cbn [app].
        rewrite Hl. reflexivity.
    + assert (pos = size) by lia. subst pos.
      exists [], t. cbn [ReadBinary_loop pages map].
      destruct (Z.ltb_spec size size); [lia |].
      rewrite !app_nil_r. repeat split. unfold len; cbn; lia.
Qed.

End ExactCard.

Lemma pages_spec (size : Z) :
  forall (n : nat) (pos : Z),
    0 <= pos <= size ->
    (size - pos + 255) / 256 <= Z.of_nat n ->
    len (pages n pos size) = (size - pos + 255) / 256 /\
    sum (map snd (pages n pos size)) = size - pos /\
    Forall (fun c => pos <= fst c < size /\ snd c = Z.min 256 (size - fst c))
           (pages n pos size).
Proof.
  induction n as [| n IH]; intros pos Hpos Hn.
  - assert (size - pos = 0) by (apply ceil_zero; [lia | exact Hn]).
    replace (size - pos) with 0 by lia. cbn. repeat split; constructor.
  - cbn [pages]. destruct (Z.ltb_spec pos size) as [Hlt | Hge].
    + set (k := Z.min 256 (size - pos)).
      assert (Hk : 1 <= k <= 256) by (subst k; lia).
      assert (Hceil : (size - (pos + k) + 255) / 256 = (size - pos + 255) / 256 - 1).
      { destruct (Z_le_gt_dec (size - pos) 256) as [Hs | Hb].
        - replace (size - (pos + k)) with 0 by (subst k; lia).
          rewrite (ceil_small (size - pos)) by lia. reflexivity.
        - replace (size - (pos + k)) with (size - pos - 256) by (subst k; lia).
          apply ceil_step. lia. }
      destruct (IH (pos + k)) as (Hlen & Hsum & Hall); [subst k; lia | lia |].
      repeat split.
      * unfold len in *. cbn [List.length]. lia.
      * cbn [map sum snd]. lia.
      * constructor; [cbn [fst snd]; subst k; lia |].
        eapply Forall_impl; [| exact Hall]. cbn beta. intros c Hc. lia.
    + assert (pos = size) by lia. subst pos.
      replace (size - size) with 0 by lia. cbn. repeat split; constructor.
Qed.

Lemma pages_increasing (size : Z) :
  forall (n : nat) (pos : Z),
    0 <= pos <= size ->
    (size - pos + 255) / 256 <= Z.of_nat n ->
    StronglySorted Z.lt (map fst (pages n pos size)).
Proof.
  induction n as [| n IH]; intros pos Hpos Hn; [constructor |].
  cbn [pages]. destruct (Z.ltb_spec pos size) as [Hlt | Hge]; [| constructor].
  set (k := Z.min 256 (size - pos)).
  assert (Hk : 1 <= k <= 256) by (subst k; lia).
  assert (Hn' : (size - (pos + k) + 255) / 256 <= Z.of_nat n).
  { destruct (Z_le_gt_dec (size - pos) 256) as [Hs | Hb].
    - replace (size - (pos + k)) with 0 by (subst k; lia).
      change ((0 + 255) / 256) with 0. lia.
    - replace (size - (pos + k)) with (size - pos - 256) by (subst k; lia).
      rewrite ceil_step by lia. lia. }
  cbn [map fst]. constructor.
  - apply IH; [subst k; lia | exact Hn'].
  - destruct (pages_spec size n (pos + k)) as (_ & _ & Hall); [subst k; lia | exact Hn' |].
    rewrite Forall_map. eapply Forall_impl; [| exact Hall]. cbn beta. intros c Hc. lia.
Qed.

(** C1, as amended. Against a card that returns exactly the number of
    octets asked for, a read of [size] octets returns them after
    ceil(size / 256) READ BINARY commands (class 00, instruction B0): the
    offsets increase and are written big-endian in P1 P2, each command asks
    for what remains but at most 256 octets, the lengths add up to [size],
    and the length octet is the number asked for modulo 256, so 0 for 256. *)
Theorem ReadBinary_paging (D : Driver) (self : Reader) (size : Z) (t : Trace) :
  exact_card D -> 0 <= size < 65536 ->
  exists res t' chunks,
    (forall fuel, (Z.to_nat (ceil_div size 256) < fuel)%nat ->
                  ReadBinary D fuel self size t = Some (res, t')) /\
    len res = size /\
    transmitted t' = transmitted t ++ map READ_BINARY chunks /\
    len chunks = ceil_div size 256 /\
    StronglySorted Z.lt (map fst chunks) /\
    Forall (fun c => 0 <= fst c < size /\ 1 <= snd c <= 256 /\
                     snd c = Z.min 256 (size - fst c)) chunks /\
    sum (map snd chunks) = size.
Proof.
  intros HD Hsize.
  set (n := Z.to_nat (ceil_div size 256)).
  assert (Hc : (size - 0 + 255) / 256 = ceil_div size 256)
    by (unfold ceil_div; f_equal; lia).
  assert (Hn : (size - 0 + 255) / 256 <= Z.of_nat n).
  { subst n. rewrite Hc, Z2Nat.id; [lia |]. unfold ceil_div. apply Z.div_pos; lia. }
  destruct (ReadBinary_loop_exact D self size HD Hsize n 0 [] t) as
    (data & t' & Hloop & Hlen & Htr); [lia | exact Hn |].
  destruct (pages_spec size n 0) as (Hpl & Hps & Hpa); [lia | exact Hn |].
  exists data, t', (pages n 0 size).
  split.
  { intros fuel Hfuel. unfold ReadBinary.
    apply (ReadBinary_loop_more_fuel D self size (S n) 0 [] t _ Hloop). lia. }
  split; [lia |]. split; [exact Htr |].
  split; [rewrite <- Hc; exact Hpl |].
  split; [apply pages_increasing; [lia | exact Hn] |].
  split; [| lia].
  eapply Forall_impl; [| exact Hpa]. cbn beta. intros c Hc'. lia.
Qed.

Lemma exact_driver_exact : exact_card Scenario.exact_driver.
Proof.
  intros t c p1 p2 le Hle.
  exists (repeat 0xAA (Z.to_nat (Le_request le))). split; [reflexivity |].
  unfold len. rewrite repeat_length. apply Z2Nat.id.
  unfold Le_request. destruct (le =? 0); lia.
Qed.

(** C1 at a read of 600 octets: pages of 256, 256 and 88. *)
Lemma ReadBinary_paging_witness :
  exists res t' chunks,
    (forall fuel, (Z.to_nat (ceil_div 600 256) < fuel)%nat ->
       ReadBinary Scenario.exact_driver fuel Scenario.reader0 600 [] = Some (res, t')) /\
    len res = 600 /\
    transmitted t' = transmitted [] ++ map READ_BINARY chunks /\
    len chunks = ceil_div 600 256 /\
    StronglySorted Z.lt (map fst chunks) /\
    Forall (fun c => 0 <= fst c < 600 /\ 1 <= snd c <= 256 /\
                     snd c = Z.min 256 (600 - fst c)) chunks /\
    sum (map snd chunks) = 600.
Proof.
  apply (ReadBinary_paging Scenario.exact_driver Scenario.reader0 600 []).
  - exact exact_driver_exact.
  - lia.
Defined.

(** C1, as stated, fails: a read of 256 octets is one command with length
    octet 0, not the ceil(256 / 255) = 2 commands of at most 255 octets. *)
Lemma ReadBinary_not_in_pages_of_255 : ~ ReadBinary_pages_of_255.
Proof.
  intros H.
  specialize (H Scenario.exact_driver Scenario.reader0 256 [] exact_driver_exact).
  specialize (H ltac:(lia) 2%nat (repeat 0xAA 256)
    [EvTransmit (Some 1) [0x00; 0xB0; 0; 0; 0] (repeat 0xAA 256 ++ [0x90; 0x00]) None]).
  assert (E : ReadBinary Scenario.exact_driver 2 Scenario.reader0 256 [] =
              Some (repeat 0xAA 256,
                    [EvTransmit (Some 1) [0x00; 0xB0; 0; 0; 0]
                       (repeat 0xAA 256 ++ [0x90; 0x00]) None]))
    by (vm_compute; reflexivity).
  specialize (H E). vm_compute in H. discriminate H.
Qed.

(** C3 at a read of 300 octets whose second page is refused: the 256
    octets of the first page are not returned. *)
Lemma ReadBinary_aborts_on_failed_page_witness :
  ReadBinary_loop Scenario.one_page_driver 2 Scenario.reader0 300 0 [] [] =
    Some ([], [] ++
      [EvTransmit (Some 1) [0x00; 0xB0; 0; 0; 0] (repeat 0xAA 256 ++ [0x90; 0x00]) None;
       EvTransmit (Some 1) [0x00; 0xB0; 1; 0; 44] [0x6A; 0x82] None]) /\
  (@nil Z = [] /\
   exists evs1 e evs2,
     [EvTransmit (Some 1) [0x00; 0xB0; 0; 0; 0] (repeat 0xAA 256 ++ [0x90; 0x00]) None;
      EvTransmit (Some 1) [0x00; 0xB0; 1; 0; 44] [0x6A; 0x82] None] = evs1 ++ e :: evs2 /\
     page_failed e /\ Forall (fun e' => ~ is_transmit e') evs2).
Proof.
  assert (E : ReadBinary_loop Scenario.one_page_driver 2 Scenario.reader0 300 0 [] [] =
    Some ([], [] ++
      [EvTransmit (Some 1) [0x00; 0xB0; 0; 0; 0] (repeat 0xAA 256 ++ [0x90; 0x00]) None;
       EvTransmit (Some 1) [0x00; 0xB0; 1; 0; 44] [0x6A; 0x82] None]))
    by (vm_compute; reflexivity).
  split; [exact E |].
  apply (proj2 (ReadBinary_aborts_on_failed_page Scenario.one_page_driver
                  Scenario.reader0 300) 2%nat 0 [] [] [] _ E).
  apply Exists_cons_tl. apply Exists_cons_hd. cbn. discriminate.
Defined.

(** ** WaitForCard *)

Lemma WaitForCard_loop_spec (D : Driver) :
  forall (n : nat) (self : Reader) (rs : list ReaderState) (t : Trace),
    exists evs,
      snd (WaitForCard_loop D n self rs t) = t ++ evs /\
      (count is_poll evs <= n)%nat /\
      (count poll_absent evs <= n)%nat /\
      count is_sleep evs = count poll_absent evs /\
      Forall (fun e => is_sleep e = true -> e = EvSleep Second) evs /\
      paced evs = true /\
      (fst (fst (WaitForCard_loop D n self rs t)) = Exit 1 <->
       count poll_absent evs = n).
Proof.
  induction n as [| n IH]; intros self rs t.
  - eexists. cbn [WaitForCard_loop fst snd]. split; [reflexivity |].
    repeat split; try (cbn; lia); try reflexivity.
    repeat constructor. discriminate.
  - cbn [WaitForCard_loop].
    destruct (GetStatusChange D t rs INFINITE) as [events [e |]] eqn:EG.
    + eexists. cbn [fst snd]. rewrite <- app_assoc. split; [reflexivity |].
      repeat split; try (cbn; lia); try reflexivity; try discriminate.
      repeat constructor; discriminate.
    + destruct (Z.land (EventState (nth 0 (set_events rs events) (mkReaderState "" 0 0)))
                       STATE_PRESENT =? 0) eqn:EP; cbn [negb].
      * match goal with
        | |- context [WaitForCard_loop D n self ?rs' ?t'] =>
            destruct (IH self rs' t') as (evs & Ht & Hp & Ha & Hs & Hd & Hpc & Hx); rewrite Ht
        end.
        exists (EvGetStatusChange rs INFINITE events None ::
                EvStderr ("wait for card..." +++ LF) :: EvSleep (1 * Second) :: evs).
        split; [rewrite <- !app_assoc; reflexivity |].
        assert (Hab : poll_absent (EvGetStatusChange rs INFINITE events None) = true)
          by exact EP.
        unfold count in *. cbn [filter is_poll is_sleep]. rewrite Hab.
        cbn [poll_absent List.length].
        split; [lia |]. split; [lia |]. split; [lia |].
        split; [repeat constructor; try discriminate; exact Hd |].
        split; [cbn [paced]; rewrite Hab; change (1 * Second =? Second) with true; exact Hpc |].
        rewrite Hx. lia.
      * destruct (Connect D (t ++ [EvGetStatusChange rs INFINITE events None])
                    (name self) SHARE_EXCLUSIVE PROTOCOL_ANY) as [c cerr].
        eexists. cbn [fst snd]. rewrite <- app_assoc. split; [reflexivity |].
        assert (Hab : poll_absent (EvGetStatusChange rs INFINITE events None) = false)
          by exact EP.
        unfold count. cbn [app filter is_poll is_sleep paced]. rewrite Hab.
        cbn [poll_absent List.length paced].
        repeat split; try lia; try reflexivity; try discriminate.
        repeat constructor; discriminate.
Qed.

(** C5. [WaitForCard] polls the reader at most 3 times; after every poll
    that finds no card it says so and sleeps one second; the process exits
    with status 1 exactly when three polls have found no card, after which
    no further poll is made; and that exit is the end of the calling
    [CheckCard] too. *)
Theorem WaitForCard_retry_cap (D : Driver) (self : Reader) (t : Trace) :
  exists evs,
    snd (WaitForCard D self t) = t ++ evs /\
    (count is_poll evs <= 3)%nat /\
    count is_sleep evs = count poll_absent evs /\
    Forall (fun e => is_sleep e = true -> e = EvSleep Second) evs /\
    paced evs = true /\
    (fst (fst (WaitForCard D self t)) = Exit 1 <-> count poll_absent evs = 3%nat) /\
    (fst (fst (WaitForCard D self t)) = Exit 1 ->
     CheckCard D self t =
       (Exit 1, snd (fst (WaitForCard D self t)), snd (WaitForCard D self t))).
Proof.
  assert (Hcaller : fst (fst (WaitForCard D self t)) = Exit 1 ->
     CheckCard D self t =
       (Exit 1, snd (fst (WaitForCard D self t)), snd (WaitForCard D self t))).
  { unfold CheckCard. destruct (WaitForCard D self t) as [[o self'] t'].
    cbn [fst snd]. intros ->. reflexivity. }
  revert Hcaller. unfold WaitForCard.
  destruct (WaitForCard_loop_spec D 3 self
              [mkReaderState (name self) STATE_UNAWARE 0] t)
    as (evs & Ht & Hp & Ha & Hs & Hd & Hpc & Hx).
  intros Hcaller.
  exists evs. repeat split; try assumption; apply Hx.
Qed.

(** C5 at a reader that stays empty. *)
Lemma WaitForCard_retry_cap_witness :
  fst (fst (WaitForCard Scenario.stuck_driver Scenario.reader0 [])) = Exit 1 /\
  fst (fst (CheckCard Scenario.stuck_driver Scenario.reader0 [])) = Exit 1.
Proof.
  destruct (WaitForCard_retry_cap Scenario.stuck_driver Scenario.reader0 [])
    as (evs & Ht & _ & _ & _ & _ & Hx & Hc).
  cbn [app] in Ht. subst evs.
  assert (H : fst (fst (WaitForCard Scenario.stuck_driver Scenario.reader0 [])) = Exit 1)
    by (apply Hx; reflexivity).
  split; [exact H |]. rewrite (Hc H). reflexivity.
Defined.

(** With no card in the reader: three polls, three sleeps, and exit 1. *)
Example WaitForCard_no_card :
  WaitForCard Scenario.stuck_driver Scenario.reader0 [] =
    (Exit 1, Scenario.reader0,
     let rs0 := [mkReaderState "reader 0" STATE_UNAWARE 0] in
     let rs1 := [mkReaderState "reader 0" STATE_UNAWARE 0x10] in
     [EvGetStatusChange rs0 INFINITE [0x10] None;
      EvStderr ("wait for card..." +++ LF); EvSleep Second;
      EvGetStatusChange rs1 INFINITE [0x10] None;
      EvStderr ("wait for card..." +++ LF); EvSleep Second;
      EvGetStatusChange rs1 INFINITE [0x10] None;
      EvStderr ("wait for card..." +++ LF); EvSleep Second;
      EvStderr ("カードが見つかりません。" +++ LF)]).
Proof. reflexivity. Qed.

End ReaderFacts.

(** * Properties of libmyna/api.go *)

Module LibmynaFacts.
Import Go Libmyna LibmynaSpec.


Lemma legacy_message_differs (tok : string) :
  "これは住基カードですね?" <> "不明なトークン情報: " +++ tok.
Proof. cbn [String.append]. discriminate. Qed.

(** C8. [CheckCard] succeeds exactly when the session opens, the
    application and the token file are selected, and the token read from
    the card is "JPKIAPICCTOKEN2"; the token "JPKIAPICCTOKEN" yields the
    legacy-card error, which is not the error of any unrecognized token;
    every other token yields the unrecognized-token error naming it. *)
Theorem CheckCard_accepts_only_expected_token (L : Lib) (W : World) (l0 : Log) :
  let s1 := l0 ++ [CNewReader; CSetDebug (Debug L)] in
  let s2 := l0 ++ [CNewReader; CSetDebug (Debug L); CConnect] in
  let s3 := l0 ++ [CNewReader; CSetDebug (Debug L); CConnect; CSelectJPKIAP] in
  let s4 := l0 ++ [CNewReader; CSetDebug (Debug L); CConnect; CSelectJPKIAP;
                   CSelectEF "00 06"] in
  let token := fst (getToken W s4) in
  let r := fst (CheckCard L W l0) in
  (r = Ret None <->
     newReader W l0 = None /\ connect W s1 = None /\ selectJPKIAP W s2 = None /\
     selectEF W s3 "00 06" = None /\ token = "JPKIAPICCTOKEN2") /\
  (newReader W l0 = None -> connect W s1 = None -> selectJPKIAP W s2 = None ->
   selectEF W s3 "00 06" = None ->
     (token = "JPKIAPICCTOKEN" -> r = Ret (Some "これは住基カードですね?")) /\
     (token <> "JPKIAPICCTOKEN2" -> token <> "JPKIAPICCTOKEN" ->
        r = Ret (Some ("不明なトークン情報: " +++ token)))) /\
  (forall tok, "これは住基カードですね?" <> "不明なトークン情報: " +++ tok).
Proof.
  intros s1 s2 s3 s4 token r.
  assert (Hr : newReader W l0 = None -> connect W s1 = None -> selectJPKIAP W s2 = None ->
               selectEF W s3 "00 06" = None ->
               r = if String.eqb token "JPKIAPICCTOKEN2" then Ret None
                   else if String.eqb token "JPKIAPICCTOKEN"
                        then Ret (Some "これは住基カードですね?")
                        else Ret (Some ("不明なトークン情報: " +++ token))).
  { intros H1 H2 H3 H4. subst r token s1 s2 s3 s4. run_api.
    answer H1. answer H2. answer H3. answer H4.
    destruct (getToken W _) as [tok terr]. cbn [fst].
    destruct (String.eqb tok "JPKIAPICCTOKEN2"); [reflexivity |].
    destruct (String.eqb tok "JPKIAPICCTOKEN"); reflexivity. }
  split; [| split; [| exact legacy_message_differs]].
  - split.
    + intros Hok.
      destruct (newReader W l0) as [e |] eqn:H1.
      { exfalso. subst r. revert Hok. run_api. answer H1. discriminate. }
      destruct (connect W s1) as [e |] eqn:H2.
      { exfalso. subst r s1. revert Hok. run_api. answer H1. answer H2. discriminate. }
      destruct (selectJPKIAP W s2) as [e |] eqn:H3.
      { exfalso. subst r s1 s2. revert Hok. run_api. answer H1. answer H2. answer H3.
        discriminate. }
      destruct (selectEF W s3 "00 06") as [e |] eqn:H4.
      { exfalso. subst r s1 s2 s3. revert Hok. run_api.
        answer H1. answer H2. answer H3. answer H4. discriminate. }
      repeat split.
      rewrite (Hr eq_refl eq_refl eq_refl eq_refl) in Hok.
      destruct (String.eqb_spec token "JPKIAPICCTOKEN2") as [E | _]; [exact E |].
      destruct (String.eqb token "JPKIAPICCTOKEN"); discriminate.
    + intros (H1 & H2 & H3 & H4 & Ht).
      rewrite (Hr H1 H2 H3 H4), Ht. reflexivity.
  - intros H1 H2 H3 H4. rewrite (Hr H1 H2 H3 H4). split.
    + intros ->. reflexivity.
    + intros Hn1 Hn2.
      destruct (String.eqb_spec token "JPKIAPICCTOKEN2"); [contradiction |].
      destruct (String.eqb_spec token "JPKIAPICCTOKEN"); [contradiction |].
      reflexivity.
Qed.

(** C8 at a legacy card. *)
Lemma CheckCard_witness :
  fst (CheckCard lib0 world_legacy_card []) = Ret (Some "これは住基カードですね?").
Proof.
  apply (proj1 (proj2 (CheckCard_accepts_only_expected_token lib0 world_legacy_card []))
           eq_refl eq_refl eq_refl eq_refl).
  reflexivity.
Defined.


(** ** PIN verification *)

(** C6. In each of the five workflows, once the session is open, a
    [Verify] that fails makes the operation return the error of [Verify]
    itself, whatever the selections before it answered (their results are
    not looked at), and the only call made after it is [Finalize]: no
    read, no change of PIN and no signature. *)
Theorem failed_verify_stops_operation (L : Lib) (W : World) (l0 : Log) (e : error) :
  newReader W l0 = None ->
  connect W (l0 ++ [CNewReader; CSetDebug (Debug L)]) = None ->
  let opened := l0 ++ opening L in
  let stopped (sel : Log) (pin : string) := opened ++ sel ++ [CVerify pin; CFinalize] in
  (forall pin,
      verify W (opened ++ helper_pin_file) pin = Some e ->
      GetMyNumber L W pin l0 = (Ret ("", Some e), stopped helper_pin_file pin)) /\
  (forall pin,
      verify W (opened ++ helper_pin_file) pin = Some e ->
      GetAttrInfo L W pin l0 = (Ret (None, Some e), stopped helper_pin_file pin)) /\
  (forall pin newpin,
      Validate4DigitPin L pin = None -> Validate4DigitPin L newpin = None ->
      verify W (opened ++ helper_pin_file) pin = Some e ->
      ChangeCardInputHelperPin L W pin newpin l0 =
        (Ret (Some e), stopped helper_pin_file pin)) /\
  (forall pin newpin,
      Validate4DigitPin L pin = None -> Validate4DigitPin L newpin = None ->
      verify W (opened ++ auth_pin_file) pin = Some e ->
      ChangeJPKIAuthPin L W pin newpin l0 =
        (Ret (Some e), stopped auth_pin_file pin)) /\
  (forall pin newpin,
      ValidateJPKISignPassword L (ToUpper L pin) = None ->
      ValidateJPKISignPassword L (ToUpper L newpin) = None ->
      verify W (opened ++ sign_pin_file) (ToUpper L pin) = Some e ->
      ChangeJPKISignPin L W pin newpin l0 =
        (Ret (Some e), stopped sign_pin_file (ToUpper L pin))) /\
  (forall self digest hash,
      verify W (opened ++ sign_pin_file) (pin self) = Some e ->
      Sign L W self digest hash l0 =
        (Ret ([], Some e), stopped sign_pin_file (pin self))) /\
  (forall sel pin,
      In sel [helper_pin_file; auth_pin_file; sign_pin_file] ->
      existsb is_dependent (opening L ++ sel ++ [CVerify pin; CFinalize]) = false).
Proof.
  intros Hnew Hconnect opened stopped.
  subst opened stopped.
  unfold opening, helper_pin_file, auth_pin_file, sign_pin_file.
  cbn beta. norm_log.
  repeat split.
  - intros pin Hv. run_api. answer Hnew. answer Hconnect. answer Hv. reflexivity.
  - intros pin Hv. run_api. answer Hnew. answer Hconnect. answer Hv. reflexivity.
  - intros pin newpin Hp Hn Hv. run_api. rewrite Hp, Hn.
    cbn beta iota zeta. answer Hnew. answer Hconnect. answer Hv. reflexivity.
  - intros pin newpin Hp Hn Hv. run_api. rewrite Hp, Hn.
    cbn beta iota zeta. answer Hnew. answer Hconnect. answer Hv. reflexivity.
  - intros pin newpin Hp Hn Hv. run_api. rewrite Hp, Hn.
    cbn beta iota zeta. answer Hnew. answer Hconnect. answer Hv. reflexivity.
  - intros self digest hash Hv. run_api. answer Hnew. answer Hconnect. answer Hv.
    reflexivity.
  - intros sel pin [<- | [<- | [<- | []]]]; reflexivity.
Qed.

(** C6 at a card that rejects the PIN. *)
Lemma failed_verify_witness :
  GetMyNumber lib0 world_wrong_pin "1234" [] =
    (Ret ("", Some "暗証番号が間違っています"),
     [CNewReader; CSetDebug false; CConnect; CSelectCardInputHelperAP;
      CSelectEF "00 11"; CVerify "1234"; CFinalize]) /\
  Sign lib0 world_wrong_pin (mkJPKISignSigner "ABC123" [0x01]) [0xAB] 5 [] =
    (Ret ([], Some "暗証番号が間違っています"),
     [CNewReader; CSetDebug false; CConnect; CSelectJPKIAP;
      CSelectEF "00 1B"; CVerify "ABC123"; CFinalize]).
Proof.
  pose proof (failed_verify_stops_operation lib0 world_wrong_pin []
                "暗証番号が間違っています" eq_refl eq_refl) as H.
  cbv zeta in H. destruct H as (H1 & _ & _ & _ & _ & H6 & _).
  split.
  - apply (H1 "1234"). reflexivity.
  - apply (H6 (mkJPKISignSigner "ABC123" [0x01]) [0xAB] 5). reflexivity.
Defined.

(** ** Format and configuration errors *)




(** ** Certificates *)

(** Whatever [ReadCertificate] answers, [GetJPKICert] returns its
    certificate with a nil error. *)
Lemma GetJPKICert_after_read (L : Lib) (W : World) (efid : string) (l0 : Log) :
  newReader W l0 = None ->
  connect W (l0 ++ [CNewReader; CSetDebug (Debug L)]) = None ->
  selectJPKIAP W (l0 ++ opening L) = None ->
  GetJPKICert L W efid "" l0 =
    (Ret (fst (readCertificate W (l0 ++ opening L ++ [CSelectJPKIAP]) efid), None),
     l0 ++ opening L ++ [CSelectJPKIAP; CReadCertificate efid; CFinalize]).
Proof.
  unfold opening. intros H1 H2 H3. run_api. answer H1. answer H2. answer H3.
  destruct (readCertificate W _ efid) as [c err]. cbn beta iota zeta. norm_log.
  reflexivity.
Qed.

(** C2 fails on the code: when the certificate file cannot be read,
    [ReadCertificate] reports an error and no certificate, and each of the
    getters returns a nil certificate with a nil error; [CmsSignJPKISign],
    which trusts the nil error, then reads the public key of no
    certificate. *)
Theorem GetJPKICert_drops_read_error :
  readCertificate world_unreadable_cert
      [CNewReader; CSetDebug false; CConnect; CSelectJPKIAP] "00 0A"
    = (None, Some "ReadFailed") /\
  fst (GetJPKIAuthCert lib0 world_unreadable_cert []) = Ret (None, None) /\
  fst (GetJPKIAuthCACert lib0 world_unreadable_cert []) = Ret (None, None) /\
  fst (GetJPKISignCert lib0 world_unreadable_cert "ABC123" []) = Ret (None, None) /\
  fst (GetJPKISignCACert lib0 world_unreadable_cert []) = Ret (None, None) /\
  fst (CmsSignJPKISign lib0 world_unreadable_cert "ABC123" "in.txt" "out.p7s"
         (mkCmsSignOpts "sha256" "pem") []) = Panic "nil pointer dereference".
Proof. repeat split. Qed.

(** ** The personal number *)

(** [GetMyNumber] panics whenever the 16-octet read gives no octet. *)
Lemma GetMyNumber_panics_on_empty_read (L : Lib) (W : World) (pin : string) (l0 : Log) :
  newReader W l0 = None ->
  connect W (l0 ++ [CNewReader; CSetDebug (Debug L)]) = None ->
  verify W (l0 ++ opening L ++ helper_pin_file) pin = None ->
  readBinary W (l0 ++ opening L ++ helper_pin_file ++ [CVerify pin; CSelectEF "00 01"]) 16
    = [] ->
  fst (GetMyNumber L W pin l0) = Panic "slice bounds out of range".
Proof.
  unfold opening, helper_pin_file. cbn [app]. intros H1 H2 H3 H4.
  run_api. answer H1. answer H2. answer H3. answer H4. reflexivity.
Qed.

(** A read of a single octet does not panic: [data[1:]] is then empty. *)
Lemma GetMyNumber_survives_one_octet (L : Lib) (W : World) (pin : string) (l0 : Log)
      (b : Z) :
  newReader W l0 = None ->
  connect W (l0 ++ [CNewReader; CSetDebug (Debug L)]) = None ->
  verify W (l0 ++ opening L ++ helper_pin_file) pin = None ->
  readBinary W (l0 ++ opening L ++ helper_pin_file ++ [CVerify pin; CSelectEF "00 01"]) 16
    = [b] ->
  fst (GetMyNumber L W pin l0) = Ret (string_of_bytes (Bytes (Unmarshal L [])), None).
Proof.
  unfold opening, helper_pin_file. cbn [app]. intros H1 H2 H3 H4.
  run_api. answer H1. answer H2. answer H3. answer H4. reflexivity.
Qed.

(** C9 fails on the code: when the card refuses READ BINARY, [ReadBinary]
    of reader.go returns nil, and [GetMyNumber] then panics on [data[1:]]
    instead of returning a (string, error) pair. *)
Theorem GetMyNumber_panics_on_failed_read :
  (exists t, Reader.ReadBinary Scenario.refusing_driver 1024 Scenario.reader0 16 []
             = Some ([], t)) /\
  GetMyNumber lib0 world_refused_read "1234" [] =
    (Panic "slice bounds out of range",
     [CNewReader; CSetDebug false; CConnect; CSelectCardInputHelperAP;
      CSelectEF "00 11"; CVerify "1234"; CSelectEF "00 01"; CReadBinary 16; CFinalize]).
Proof.
  split.
  - eexists. reflexivity.
  - reflexivity.
Qed.

End LibmynaFacts.

(** * Further properties of reader.go *)

Module ReaderExtras.
Import Go Scard Reader ReaderSpec ReaderMore ReaderFacts.

(** ** Hexadecimal text *)

Lemma hexval_range (c : ascii) (v : Z) : hexval c = Some v -> 0 <= v < 16.
Proof.
  unfold hexval. intros H.
  repeat match type of H with
         | (if ?b then _ else _) = _ => destruct b eqn:?
         end; inversion H; subst; lia.
Qed.

Lemma hex_decode_octets_bounded (n : nat) :
  forall s, (String.length s <= n)%nat -> Forall octet (hex_decode s).
Proof.
  induction n as [| n IH]; intros s Hn.
  - destruct s; [constructor | cbn in Hn; lia].
  - destruct s as [| h [| l rest]]; try constructor.
    cbn [hex_decode].
    destruct (hexval h) as [a |] eqn:Ea; [| constructor].
    destruct (hexval l) as [b |] eqn:Eb; [| constructor].
    constructor.
    + apply hexval_range in Ea. apply hexval_range in Eb. unfold octet. lia.
    + apply IH. cbn [String.length] in Hn. lia.
Qed.

Lemma ToBytes_octets (s : string) : Forall octet (ToBytes s).
Proof. unfold ToBytes. eapply hex_decode_octets_bounded. reflexivity. Qed.

(** What [% X] prints is read back by [ToBytes] as the same octets. *)
Lemma ToBytes_fmt_spX (bs : list Z) : Forall octet bs -> ToBytes (fmt_spX bs) = bs.
Proof.
  induction 1 as [| b rest Hb Hrest IH]; [reflexivity |].
  destruct rest as [| b' rest'].
  - cbn [fmt_spX]. replace (fmt_02X b) with (fmt_02X b +++ "") by reflexivity.
    rewrite ToBytes_octet by exact Hb. reflexivity.
  - change (fmt_spX (b :: b' :: rest')) with (fmt_02X b +++ " " +++ fmt_spX (b' :: rest')).
    rewrite ToBytes_octet by exact Hb. rewrite ToBytes_blank, IH. reflexivity.
Qed.

(** ** Tx *)

Lemma transmitted_stdout (evs : Trace) : Forall is_stdout evs -> transmitted evs = [].
Proof.
  induction 1 as [| e evs He _ IH]; [reflexivity |].
  destruct e; cbn in He; try contradiction. exact IH.
Qed.

(** One call of [Tx], whole: its value and what it adds to the trace. *)
Lemma Tx_exchange (D : Driver) (self : Reader) (apdu : string) (t : Trace) :
  exists pre res err post,
    Tx D self apdu t =
      ((fst (response_status res err), snd (response_status res err),
        exchange_data (EvTransmit (card self) (ToBytes apdu) res err)),
       t ++ pre ++ EvTransmit (card self) (ToBytes apdu) res err :: post) /\
    Forall is_stdout pre /\ Forall is_stdout post /\
    (verbose self = false -> pre = [] /\ (err = None -> post = [])) /\
    Transmit D (t ++ pre) (card self) (ToBytes apdu) = (res, err).
Proof.
  destruct (Transmit D (Tx_before self apdu t) (card self) (ToBytes apdu))
    as [res [e |]] eqn:E.
  - exists (if verbose self then [EvStdout (">> " +++ apdu +++ LF)] else []),
      res, (Some e), [EvStdout ("err: " +++ e +++ LF)].
    rewrite (Tx_on_error D self apdu t res e E). unfold Tx_before in *.
    destruct (verbose self); cbn [response_status exchange_data fst snd];
      rewrite <- ?app_assoc, ?app_nil_r; repeat split; try reflexivity;
      try exact E; repeat constructor; try discriminate.
  - exists (if verbose self then [EvStdout (">> " +++ apdu +++ LF)] else []),
      res, None, (if verbose self then [EvStdout (dump res)] else []).
    assert (Hv : fst (Tx D self apdu t) =
                 (fst (response_status res None), snd (response_status res None),
                  firstn (List.length res - 2) res)).
    { destruct (Nat.lt_ge_cases (List.length res) 2) as [Hl | Hl].
      - rewrite (Tx_on_short D self apdu t res E Hl), (response_status_short res Hl).
        replace (List.length res - 2)%nat with 0%nat by lia. reflexivity.
      - destruct (response_split res Hl) as (data & sw1 & sw2 & ->).
        rewrite (Tx_on_response D self apdu t data sw1 sw2 E), response_status_app.
        rewrite length_app. cbn [List.length fst snd].
        replace (List.length data + 2 - 2)%nat with (List.length data) by lia.
        rewrite firstn_app, Nat.sub_diag, firstn_all. cbn [firstn].
        rewrite app_nil_r. reflexivity. }
    assert (Ht : snd (Tx D self apdu t) =
                 t ++ (if verbose self then [EvStdout (">> " +++ apdu +++ LF)] else []) ++
                 EvTransmit (card self) (ToBytes apdu) res None ::
                 (if verbose self then [EvStdout (dump res)] else [])).
    { unfold Tx. rewrite E. unfold Tx_before.
      destruct (len res =? 2); [| destruct (len res >? 2)];
        destruct (verbose self); cbn [snd app]; rewrite <- ?app_assoc; cbn [app];
        rewrite ?app_nil_r; reflexivity. }
    split.
    + rewrite (surjective_pairing (Tx D self apdu t)), Hv, Ht. reflexivity.
    + unfold Tx_before in E.
      destruct (verbose self); rewrite ?app_nil_r; repeat split; try reflexivity;
        try exact E; repeat constructor; try discriminate.
Qed.

(** X1. Every call of [Tx] hands the card exactly one command, the octets
    of its APDU text, whatever the verbose flag and however the
    transmission ends; everything else it adds to the trace is printed
    text, and with the flag off it prints only the error of a failed
    transmission. *)
Theorem Tx_transmits_once (D : Driver) (self : Reader) (apdu : string) (t : Trace) :
  transmitted (snd (Tx D self apdu t)) = transmitted t ++ [ToBytes apdu] /\
  Forall octet (ToBytes apdu) /\
  exists pre res err post,
    snd (Tx D self apdu t) =
      t ++ pre ++ EvTransmit (card self) (ToBytes apdu) res err :: post /\
    Forall is_stdout pre /\ Forall is_stdout post /\
    (verbose self = false -> pre = [] /\ (err = None -> post = [])).
Proof.
  destruct (Tx_exchange D self apdu t)
    as (pre & res & err & post & HT & Fpre & Fpost & Hq & _).
  split; [| split; [apply ToBytes_octets |]].
  - rewrite HT. cbn [snd]. rewrite !transmitted_app.
    change (EvTransmit (card self) (ToBytes apdu) res err :: post)
      with ([EvTransmit (card self) (ToBytes apdu) res err] ++ post).
    rewrite transmitted_app, (transmitted_stdout pre Fpre), (transmitted_stdout post Fpost).
    reflexivity.
  - exists pre, res, err, post. rewrite HT. repeat split; try assumption; apply Hq; assumption.
Qed.

(** ** SelectDF, SelectEF *)

Lemma Select_apdu_bytes (p1 n : Z) (bid : list Z) :
  octet p1 -> octet n -> Forall octet bid ->
  ToBytes ("00 A4 " +++ fmt_02X p1 +++ " 0C" +++ " " +++ fmt_02X n +++ " " +++ fmt_spX bid)
    = [0x00; 0xA4; p1; 0x0C; n] ++ bid.
Proof.
  intros Hp Hn Hb.
  change ("00 A4 " +++ ?s) with (fmt_02X 0x00 +++ " " +++ fmt_02X 0xA4 +++ " " +++ s).
  change (" 0C" +++ ?s) with (" " +++ fmt_02X 0x0C +++ s).
  unfold octet in *.
  rewrite ToBytes_octet, ToBytes_blank, ToBytes_octet, ToBytes_blank by lia.
  rewrite ToBytes_octet, ToBytes_blank, ToBytes_octet, ToBytes_blank by lia.
  rewrite ToBytes_octet, ToBytes_blank by lia.
  rewrite ToBytes_fmt_spX by exact Hb. reflexivity.
Qed.

(** X2. [SelectDF] and [SelectEF] send one SELECT command each: class 00,
    instruction A4, P1 04 for an application and 02 for a file, P2 0C,
    then the number of octets of the identifier and the identifier as
    [ToBytes] reads it (so an identifier in lower-case hex, or with no
    octet at all, is sent as it is read); they return the status word of
    that exchange. *)
Theorem Select_command (D : Driver) (self : Reader) (id : string) (t : Trace) :
  len (ToBytes id) < 256 ->
  let bid := ToBytes id in
  (exists pre res err post,
     SelectDF D self id t =
       (response_status res err,
        t ++ pre ++
          EvTransmit (card self) ([0x00; 0xA4; 0x04; 0x0C; len bid] ++ bid) res err :: post) /\
     Forall is_stdout pre /\ Forall is_stdout post) /\
  (exists pre res err post,
     SelectEF D self id t =
       (response_status res err,
        t ++ pre ++
          EvTransmit (card self) ([0x00; 0xA4; 0x02; 0x0C; len bid] ++ bid) res err :: post) /\
     Forall is_stdout pre /\ Forall is_stdout post) /\
  SelectAP D self id t = SelectDF D self id t.
Proof.
  intros Hlen.
  assert (Hn : octet (len (ToBytes id))) by (unfold octet, len in *; lia).
  pose proof (ToBytes_octets id) as Hb.
  intros bid. fold bid in Hn, Hb.
  split; [| split; [| reflexivity]].
  - unfold SelectDF. fold bid.
    change ("00 A4 04 0C" +++ " " +++ fmt_02X (len bid) +++ " " +++ fmt_spX bid)
      with ("00 A4 " +++ fmt_02X 0x04 +++ " 0C" +++ " " +++ fmt_02X (len bid) +++ " "
            +++ fmt_spX bid).
    destruct (Tx_exchange D self
                ("00 A4 " +++ fmt_02X 0x04 +++ " 0C" +++ " " +++ fmt_02X (len bid) +++ " "
                 +++ fmt_spX bid) t)
      as (pre & res & err & post & HT & Fpre & Fpost & _ & _).
    rewrite HT, Select_apdu_bytes by (assumption || (unfold octet; lia)).
    exists pre, res, err, post. split; [| split; assumption].
    destruct (response_status res err). reflexivity.
  - unfold SelectEF. fold bid.
    change ("00 A4 02 0C" +++ " " +++ fmt_02X (len bid) +++ " " +++ fmt_spX bid)
      with ("00 A4 " +++ fmt_02X 0x02 +++ " 0C" +++ " " +++ fmt_02X (len bid) +++ " "
            +++ fmt_spX bid).
    destruct (Tx_exchange D self
                ("00 A4 " +++ fmt_02X 0x02 +++ " 0C" +++ " " +++ fmt_02X (len bid) +++ " "
                 +++ fmt_spX bid) t)
      as (pre & res & err & post & HT & Fpre & Fpost & _ & _).
    rewrite HT, Select_apdu_bytes by (assumption || (unfold octet; lia)).
    exists pre, res, err, post. split; [| split; assumption].
    destruct (response_status res err). reflexivity.
Qed.

(** X2 at the identifier of the personal-number application, written
    with a lower-case digit as in [CheckCard], and a card that refuses. *)
Lemma Select_command_witness :
  exists pre res err post,
    SelectDF Scenario.refusing_driver Scenario.reader0
        "D3 92 f0 00 26 01 00 00 00 01" [] =
      (response_status res err,
       [] ++ pre ++
         EvTransmit (Some 1)
           ([0x00; 0xA4; 0x04; 0x0C; 10] ++
            [0xD3; 0x92; 0xF0; 0x00; 0x26; 0x01; 0x00; 0x00; 0x00; 0x01]) res err :: post) /\
    Forall is_stdout pre /\ Forall is_stdout post.
Proof.
  apply (proj1 (Select_command Scenario.refusing_driver Scenario.reader0
                  "D3 92 f0 00 26 01 00 00 00 01" [] ltac:(vm_compute; reflexivity))).
Defined.

(** ** ReadBinary against any card *)

Lemma ReadBinary_length_octet (size pos : Z) : octet (ReadBinary_length size pos).
Proof.
  unfold ReadBinary_length, octet, wrap8.
  destruct (wrap16 (size - pos) >? 0xFF); [lia | apply Z.mod_pos_bound; lia].
Qed.

Lemma wrap16_range (z : Z) : 0 <= wrap16 z < 65536.
Proof. unfold wrap16. apply Z.mod_pos_bound. lia. Qed.

Lemma wrap16_add (a b : Z) : wrap16 (wrap16 a + wrap16 b) = wrap16 (a + b).
Proof. unfold wrap16. symmetry. apply Z.add_mod. lia. Qed.



(** One iteration of the paging loop that goes on. *)
Lemma ReadBinary_loop_step (D : Driver) (self : Reader) (size pos : Z)
      (res : list Z) (t : Trace) (fuel : nat) :
  pos = wrap16 (len res) -> pos < size ->
  exists pre rs err post,
    let ev := EvTransmit (card self)
                [0x00; 0xB0; pos / 256; pos mod 256; ReadBinary_length size pos] rs err in
    Forall is_stdout pre /\ Forall is_stdout post /\
    Transmit D (t ++ pre) (card self)
      [0x00; 0xB0; pos / 256; pos mod 256; ReadBinary_length size pos] = (rs, err) /\
    ((page_failed ev /\
      ReadBinary_loop D (S fuel) self size pos res t = Some ([], t ++ pre ++ ev :: post)) \/
     (response_status rs err = (0x90, 0x00) /\
      ReadBinary_loop D (S fuel) self size pos res t =
        ReadBinary_loop D fuel self size (wrap16 (len (res ++ exchange_data ev)))
          (res ++ exchange_data ev) (t ++ pre ++ ev :: post))).
Proof.
  intros Hpos Hlt.
  destruct (Tx_exchange D self (ReadBinary_apdu pos (ReadBinary_length size pos)) t)
    as (pre & rs & err & post & HT & Fpre & Fpost & _ & HD).
  assert (Hp : 0 <= pos < 65536) by (rewrite Hpos; apply wrap16_range).
  rewrite (ReadBinary_apdu_bytes pos _ Hp (ReadBinary_length_octet size pos)) in HT, HD.
  exists pre, rs, err, post. cbn zeta.
  split; [exact Fpre |]. split; [exact Fpost |]. split; [exact HD |].
  cbn [ReadBinary_loop]. destruct (Z.ltb_spec pos size) as [_ | Hge]; [| lia].
  rewrite HT.
  destruct (negb (fst (response_status rs err) =? 0x90) ||
            negb (snd (response_status rs err) =? 0x00)) eqn:Echk.
  - left. split; [| reflexivity].
    cbn [page_failed]. apply status_check in Echk.
    destruct (response_status rs err). exact Echk.
  - right. split.
    + destruct (response_status rs err) as [sw1 sw2]. cbn [fst snd] in Echk.
      destruct (Z.eqb_spec sw1 0x90) as [-> |]; destruct (Z.eqb_spec sw2 0x00) as [-> |];
        cbn in Echk; congruence.
    + rewrite Hpos, wrap16_add, len_app. reflexivity.
Qed.




(** ** ReadBinary against a card that never sends more than asked *)

Lemma successful_exchange_data (c : option Card) (cmd rs : list Z) (err : option error) :
  response_status rs err = (0x90, 0x00) ->
  err = None /\ len (exchange_data (EvTransmit c cmd rs err)) = len rs - 2 /\ 2 <= len rs.
Proof.
  intros H. destruct err as [e |]; [discriminate H |].
  destruct (Nat.lt_ge_cases (List.length rs) 2) as [Hl | Hl].
  - rewrite (response_status_short rs Hl) in H. discriminate H.
  - split; [reflexivity |]. cbn [exchange_data]. unfold len.
    rewrite length_firstn. lia.
Qed.

Section PoliteCard.
Variable D : Driver.
Variable self : Reader.
Variable size : Z.
Hypothesis Hpolite : never_more D.
Hypothesis Hsize : 0 <= size < 65536.

(** One successful page moves the position forward by its data, and not
    beyond [size]. *)
Lemma polite_page (pos : Z) (res : list Z) (t pre : Trace) (rs : list Z)
      (err : option error) :
  0 <= pos < size ->
  Transmit D (t ++ pre) (card self)
    [0x00; 0xB0; pos / 256; pos mod 256; ReadBinary_length size pos] = (rs, err) ->
  response_status rs err = (0x90, 0x00) ->
  let data := exchange_data
                (EvTransmit (card self)
                   [0x00; 0xB0; pos / 256; pos mod 256; ReadBinary_length size pos] rs err) in
  len data = len rs - 2 /\ 0 <= len data /\ pos + len data <= size.
Proof.
  intros Hpos HT Hok data.
  destruct (successful_exchange_data (card self)
              [0x00; 0xB0; pos / 256; pos mod 256; ReadBinary_length size pos] rs err Hok)
    as (-> & Hlen & H2).
  fold data in Hlen.
  pose proof (Hpolite _ _ _ _ _ _ (ReadBinary_length_octet size pos) HT) as Hmax.
  destruct (ReadBinary_length_min size pos) as [_ HLe]; [lia | lia |].
  rewrite HLe in Hmax. lia.
Qed.


Lemma ReadBinary_loop_ends :
  progressing D ->
  forall (n : nat) pos res t,
    pos = len res -> pos <= size -> size - pos <= Z.of_nat n ->
    exists r t', ReadBinary_loop D (S n) self size pos res t = Some (r, t').
Proof.
  intros Hprog. induction n as [| n IH]; intros pos res t Hpos Hle Hn.
  - exists res, t. cbn [ReadBinary_loop]. destruct (Z.ltb_spec pos size); [lia | reflexivity].
  - assert (H0 : 0 <= pos) by (rewrite Hpos; unfold len; lia).
    assert (Hw : pos = wrap16 (len res))
      by (rewrite <- Hpos; symmetry; apply Z.mod_small; lia).
    destruct (Z.lt_ge_cases pos size) as [Hlt | Hge].
    + destruct (ReadBinary_loop_step D self size pos res t (S n) Hw Hlt)
        as (pre & rs & err & post & Fpre & Fpost & HT & [[Hf Hl] | [Hok Hl]]);
        cbn zeta in *; rewrite Hl.
      * eexists. eexists. reflexivity.
      * destruct (polite_page pos res t pre rs err ltac:(lia) HT Hok) as (Hd & Hd0 & Hd').
        cbn zeta in Hd, Hd0, Hd'.
        destruct (successful_exchange_data (card self)
                    [0x00; 0xB0; pos / 256; pos mod 256; ReadBinary_length size pos]
                    rs err Hok) as (-> & _ & _).
        pose proof (Hprog _ _ _ _ HT Hok) as H3.
        match goal with
        | |- context [wrap16 ?x] =>
            replace (wrap16 x) with x
              by (symmetry; apply Z.mod_small; rewrite len_app; lia)
        end.
        apply IH; [reflexivity | rewrite len_app; lia | rewrite len_app; lia].
    + exists res, t. cbn [ReadBinary_loop].
      destruct (Z.ltb_spec pos size); [lia | reflexivity].
Qed.

End PoliteCard.


(** X5. Against such a card, if every successful page also carries at
    least one octet of data, a read of [size] octets ends within [size]
    pages: the loop of [ReadBinary] returns. *)
Theorem ReadBinary_ends (D : Driver) (self : Reader) (size : Z) (t : Trace) :
  never_more D -> progressing D -> 0 <= size < 65536 ->
  exists r t',
    forall fuel, (Z.to_nat size < fuel)%nat ->
      ReadBinary D fuel self size t = Some (r, t').
Proof.
  intros HD Hprog Hsize.
  destruct (ReadBinary_loop_ends D self size HD Hsize Hprog (Z.to_nat size) 0 [] t)
    as (r & t' & H); [reflexivity | lia | lia |].
  exists r, t'. intros fuel Hfuel. unfold ReadBinary.
  apply (ReadBinary_loop_more_fuel D self size _ _ _ _ _ H). lia.
Qed.

Lemma trickle_never_more : never_more trickle_driver.
Proof.
  intros t c p1 p2 le res Hle H. cbn in H. inversion H; subst.
  unfold Le_request, len. destruct (le =? 0) eqn:E; cbn [List.length]; [lia |].
  apply Z.eqb_neq in E. lia.
Qed.

Lemma trickle_progressing : progressing trickle_driver.
Proof.
  intros t c cmd res H Hok. cbn in H.
  repeat match type of H with
         | (match ?x with _ => _ end) = _ => destruct x
         end; inversion H; subst; try discriminate Hok; unfold len; cbn; lia.
Qed.


Lemma ReadBinary_ends_witness :
  exists r t',
    forall fuel, (Z.to_nat 300 < fuel)%nat ->
      ReadBinary trickle_driver fuel Scenario.reader0 300 [] = Some (r, t').
Proof.
  apply (ReadBinary_ends trickle_driver Scenario.reader0 300 []
           trickle_never_more trickle_progressing). lia.
Defined.

(** ** WaitForCard, NewReader, CheckCard *)

Lemma count_cons (f : Event -> bool) (e : Event) (evs : Trace) :
  count f (e :: evs) = ((if f e then 1 else 0) + count f evs)%nat.
Proof. unfold count. cbn [filter]. destruct (f e); reflexivity. Qed.






(** A card is in the reader but cannot be connected to: [WaitForCard]
    returns nil and says nothing. *)
Example WaitForCard_connect_error_dropped :
  WaitForCard unconnectable_driver fresh_reader [] =
    (Return None, fresh_reader,
     [EvGetStatusChange [mkReaderState "reader 0" STATE_UNAWARE 0] INFINITE
        [STATE_PRESENT] None;
      EvConnect "reader 0" SHARE_EXCLUSIVE PROTOCOL_ANY None (Some "sharing violation")]).
Proof. reflexivity. Qed.

(** X8. [NewReader] gives a reader exactly when the context is established
    and the driver lists at least one reader without error; the reader is
    then the first one listed, with no card, and the warning is printed
    exactly when more readers were listed. In no case does [NewReader]
    release the context, also not when it gives up. *)
Theorem NewReader_first_reader (D : Driver) (v : bool) (t : Trace) :
  let r := NewReader D v t in
  let warning :=
    EvStderr ("警告: 複数のリーダーが見つかりました。最初のものを使います。" +++ LF) in
  exists evs,
    snd r = t ++ evs /\ count is_release evs = 0%nat /\
    match fst r with
    | Some rd =>
        EstablishContext D t = None /\
        exists rest,
          ListReaders D (t ++ [EvEstablishContext None]) = (name rd :: rest, None) /\
          rd = mkReader (name rd) v None /\
          (In warning evs <-> rest <> [])
    | None =>
        (exists e, EstablishContext D t = Some e) \/
        (EstablishContext D t = None /\
         (snd (ListReaders D (t ++ [EvEstablishContext None])) <> None \/
          fst (ListReaders D (t ++ [EvEstablishContext None])) = []))
    end.
Proof.
  cbn zeta. unfold NewReader.
  destruct (EstablishContext D t) as [e |] eqn:EE.
  - eexists. cbn [fst snd]. rewrite <- app_assoc. split; [reflexivity |].
    split; [reflexivity |]. left. exists e. reflexivity.
  - destruct (ListReaders D (t ++ [EvEstablishContext None])) as [readers err] eqn:EL.
    destruct err as [e |]; [| destruct readers as [| first rest]].
    + destruct readers; eexists; cbn [fst snd]; rewrite <- !app_assoc;
        (split; [reflexivity |]); (split; [reflexivity |]);
        right; (split; [reflexivity |]); left; discriminate.
    + eexists. cbn [fst snd]. rewrite <- !app_assoc. split; [reflexivity |].
      split; [reflexivity |]. right. split; [reflexivity |]. right. reflexivity.
    + destruct rest as [| second rest].
      * eexists. cbn [fst snd len List.length]. cbn [Z.of_nat Pos.of_succ_nat Z.geb Z.compare Pos.compare Pos.compare_cont].
        rewrite <- !app_assoc. split; [reflexivity |]. split; [reflexivity |].
        split; [reflexivity |]. exists []. repeat split.
        -- intros [H | [H | []]]; discriminate H.
        -- intros H. contradiction H. reflexivity.
      * assert (Hge : (len (first :: second :: rest) >=? 2) = true).
        { unfold len. cbn [List.length]. apply Z.geb_le. lia. }
        rewrite Hge.
        eexists. cbn [fst snd]. rewrite <- !app_assoc. split; [reflexivity |].
        split; [reflexivity |]. split; [reflexivity |].
        exists (second :: rest). repeat split.
        -- discriminate.
        -- intros _. cbn [app In]. right. right. left. reflexivity.
Qed.

End ReaderExtras.

(** * Further properties of libmyna/api.go *)

Module LibmynaExtras.
Import Go Libmyna LibmynaSpec LibmynaMore.

Lemma run_app (W : World) (calls1 calls2 : Log) :
  forall log s,
    run W log s (calls1 ++ calls2) =
      match run W log s calls1 with
      | Some s' => run W (log ++ calls1) s' calls2
      | None => None
      end.
Proof.
  induction calls1 as [| c calls1 IH]; intros log s.
  - cbn [app run]. rewrite app_nil_r. reflexivity.
  - cbn [app run]. destruct (step W log s c) as [s' |]; [| reflexivity].
    rewrite IH. rewrite <- app_assoc. reflexivity.
Qed.

Section Protocol.
Variable L : Lib.
Variable W : World.

(** X9. Every operation of the API keeps the order of a card session,
    on every path, also when it panics or returns early: a reader is
    made only with no session open; [Connect] is called once per session and
    commands go to the card only after it succeeded; every session that
    was opened is finalized before the operation ends and before the next
    one is opened; and files are read and written only with no session open. *)
Theorem api_keeps_protocol :
  keeps_protocol W (CheckCard L W) /\
  (forall pin, keeps_protocol W (GetMyNumber L W pin)) /\
  (forall pin, keeps_protocol W (GetAttrInfo L W pin)) /\
  (forall pin newpin pintype, keeps_protocol W (Change4DigitPin L W pin newpin pintype)) /\
  (forall pin newpin, keeps_protocol W (ChangeJPKISignPin L W pin newpin)) /\
  (forall efid pin, keeps_protocol W (GetJPKICert L W efid pin)) /\
  (forall self digest hash, keeps_protocol W (Sign L W self digest hash)) /\
  (forall out signed form, keeps_protocol W (writeCms L W out signed form)) /\
  (forall pin input out opts, keeps_protocol W (CmsSignJPKISign L W pin input out opts)).
Proof.
  repeat split; intros; intros l0.
  - api_cases. all: api_protocol.
  - api_cases. all: api_protocol.
  - api_cases. all: api_protocol.
  - api_cases. all: api_protocol.
  - api_cases. all: api_protocol.
  - api_cases. all: api_protocol.
  - api_cases. all: api_protocol.
  - api_cases. all: api_protocol.
  - unfold CmsSignJPKISign, GetDigestOID. api_cases. all: api_protocol.
Qed.

(** X10. [CmsSignJPKISign] opens, writes or closes its output only after
    the card has returned a signature without error: a run that fails
    before that (bad digest name, unreadable input, no card, wrong PIN,
    unreadable certificate, failed signature) leaves the output file as
    it was. *)
Theorem CmsSignJPKISign_output_after_signature
        (pin input out : string) (opts : CmsSignOpts) (l0 : Log) :
  exists calls,
    snd (CmsSignJPKISign L W pin input out opts l0) = l0 ++ calls /\
    signed_before_output W l0 false calls = true.
Proof.
  unfold CmsSignJPKISign, GetDigestOID. api_cases. all: api_signed.
Qed.

End Protocol.

(** ** What each operation returns *)

(** X11. An error returned by [GetMyNumber] is the error of [NewReader],
    of [Connect] or of [Verify], returned as it is with an empty number;
    no failure of a selection, of the read or of the decoding is ever
    reported as an error. *)
Theorem GetMyNumber_error_sources
        (L : Lib) (W : World) (pin : string) (l0 : Log) (s : string) (e : error) :
  fst (GetMyNumber L W pin l0) = Ret (s, Some e) ->
  s = "" /\
  (newReader W l0 = Some e \/
   connect W (l0 ++ [CNewReader; CSetDebug (Debug L)]) = Some e \/
   verify W (l0 ++ opening L ++ helper_pin_file) pin = Some e).
Proof.
  unfold opening, helper_pin_file. cbn [app]. run_api.
  destruct (newReader W l0) as [e1 |] eqn:H1; cbn beta iota zeta; norm_log.
  { cbn [fst]. intros H. inversion H. auto. }
  destruct (connect W _) as [e2 |] eqn:H2; cbn beta iota zeta; norm_log.
  { cbn [fst]. intros H. inversion H. auto. }
  destruct (verify W _ pin) as [e3 |] eqn:H3; cbn beta iota zeta; norm_log.
  { cbn [fst]. intros H. inversion H. auto. }
  unfold slice_from.
  destruct (1 >? len (readBinary W _ 16)); cbn beta iota zeta; cbn [fst];
    intros H; inversion H.
Qed.

Lemma GetMyNumber_error_sources_witness :
  "" = "" /\
  (newReader world_wrong_pin [] = Some "暗証番号が間違っています" \/
   connect world_wrong_pin ([] ++ [CNewReader; CSetDebug (Debug lib0)])
     = Some "暗証番号が間違っています" \/
   verify world_wrong_pin ([] ++ opening lib0 ++ helper_pin_file) "1234"
     = Some "暗証番号が間違っています").
Proof.
  apply (GetMyNumber_error_sources lib0 world_wrong_pin "1234" []). reflexivity.
Defined.

Section Outcomes.
Variable L : Lib.
Variable W : World.
Variable l0 : Log.
Hypothesis Hopen : session_opens L W l0.

(** X12. For every kind of PIN, once both PINs pass the format check and
    the session opens, [Change4DigitPin] makes the selection of that kind
    (none at all for a kind that is neither CARD_INPUT_HELPER nor
    JPKI_AUTH: the PIN is then verified and changed in whatever is
    selected), verifies the old PIN, and sends [ChangePin] once, with the
    new PIN, exactly when the verification passed; it returns the error of
    [Verify], or the fixed message when [ChangePin] answers false, or nil. *)
Theorem Change4DigitPin_outcome (pin newpin pintype : string) :
  Validate4DigitPin L pin = None -> Validate4DigitPin L newpin = None ->
  let sel := pin_file_of pintype in
  let v := verify W (l0 ++ opening L ++ sel) pin in
  let b := changePin W (l0 ++ opening L ++ sel ++ [CVerify pin]) newpin in
  Change4DigitPin L W pin newpin pintype l0 =
    (Ret (match v with
          | Some e => Some e
          | None => if b then None else Some "PINの変更に失敗しました"
          end),
     l0 ++ opening L ++ sel ++ [CVerify pin] ++
       (match v with None => [CChangePin newpin] | Some _ => [] end) ++ [CFinalize]).
Proof.
  destruct Hopen as [Hnew Hconnect]. intros Hp Hn.
  unfold pin_file_of, opening, helper_pin_file, auth_pin_file. cbn zeta.
  run_api. rewrite Hp, Hn. cbn beta iota zeta. answer Hnew. answer Hconnect.
  destruct (String.eqb pintype "CARD_INPUT_HELPER");
    [| destruct (String.eqb pintype "JPKI_AUTH")];
    cbn beta iota zeta; norm_log;
    (destruct (verify W _ pin) as [e |]; cbn beta iota zeta; norm_log;
     [reflexivity |]);
    destruct (changePin W _ newpin); cbn [negb]; cbn beta iota zeta; norm_log;
    reflexivity.
Qed.

(** X13. [ChangeJPKISignPin] sends the card the upper-case form of both
    passwords: once they pass the format check and the session opens, it
    selects the signing PIN, verifies the old password in upper case and
    sends [ChangePin] once, with the new password in upper case, exactly
    when the verification passed. *)
Theorem ChangeJPKISignPin_outcome (pin newpin : string) :
  ValidateJPKISignPassword L (ToUpper L pin) = None ->
  ValidateJPKISignPassword L (ToUpper L newpin) = None ->
  let v := verify W (l0 ++ opening L ++ sign_pin_file) (ToUpper L pin) in
  let b := changePin W (l0 ++ opening L ++ sign_pin_file ++ [CVerify (ToUpper L pin)])
             (ToUpper L newpin) in
  ChangeJPKISignPin L W pin newpin l0 =
    (Ret (match v with
          | Some e => Some e
          | None => if b then None else Some "PINの変更に失敗しました"
          end),
     l0 ++ opening L ++ sign_pin_file ++ [CVerify (ToUpper L pin)] ++
       (match v with None => [CChangePin (ToUpper L newpin)] | Some _ => [] end) ++
       [CFinalize]).
Proof.
  destruct Hopen as [Hnew Hconnect]. intros Hp Hn.
  unfold opening, sign_pin_file. cbn zeta.
  run_api. rewrite Hp, Hn. cbn beta iota zeta. answer Hnew. answer Hconnect.
  destruct (verify W _ (ToUpper L pin)) as [e |]; cbn beta iota zeta; norm_log;
    [reflexivity |].
  destruct (changePin W _ (ToUpper L newpin)); cbn [negb]; cbn beta iota zeta;
    norm_log; reflexivity.
Qed.

(** X14. Once the session opens and the application is selected,
    [GetJPKICert] verifies the signing PIN exactly when a PIN is given,
    and before it reads; a failed verification is returned as it is and
    the certificate file is not read. *)
Theorem GetJPKICert_outcome (efid pin : string) :
  selectJPKIAP W (l0 ++ opening L) = None ->
  let selected := l0 ++ opening L ++ [CSelectJPKIAP] in
  (pin = "" ->
   GetJPKICert L W efid pin l0 =
     (Ret (fst (readCertificate W selected efid), None),
      selected ++ [CReadCertificate efid; CFinalize])) /\
  (pin <> "" ->
   GetJPKICert L W efid pin l0 =
     match verifySignPin W selected pin with
     | Some e => (Ret (None, Some e), selected ++ [CVerifySignPin pin; CFinalize])
     | None =>
         (Ret (fst (readCertificate W (selected ++ [CVerifySignPin pin]) efid), None),
          selected ++ [CVerifySignPin pin; CReadCertificate efid; CFinalize])
     end).
Proof.
  destruct Hopen as [Hnew Hconnect]. unfold opening. cbn [app]. intros Hsel. cbn zeta.
  split; intros Hpin.
  - subst pin. run_api. answer Hnew. answer Hconnect. answer Hsel.
    destruct (readCertificate W _ efid) as [c err]. cbn beta iota zeta. norm_log.
    reflexivity.
  - apply String.eqb_neq in Hpin. run_api. answer Hnew. answer Hconnect. answer Hsel.
    rewrite Hpin. cbn [negb]. cbn beta iota zeta. norm_log.
    destruct (verifySignPin W _ pin) as [e |]; cbn beta iota zeta; norm_log;
      [reflexivity |].
    destruct (readCertificate W _ efid) as [c err]. cbn beta iota zeta. norm_log.
    reflexivity.
Qed.

(** X15. Once the session opens and the PIN is verified, [Sign] selects
    the signature file and asks the card once for the signature of
    [makeDigestInfo] of the hash and digest it was given; it returns the
    signature of the card, or no signature with the error of the card. *)
Theorem Sign_outcome (self : JPKISignSigner) (digest : list Z) (hash : Z) :
  let verified := l0 ++ opening L ++ sign_pin_file ++ [CVerify (pin self)] in
  verify W (l0 ++ opening L ++ sign_pin_file) (pin self) = None ->
  let answer := signature W (verified ++ [CSelectEF "00 1A"])
                  (makeDigestInfo L hash digest) in
  Sign L W self digest hash l0 =
    (Ret (match snd answer with
          | Some e => ([], Some e)
          | None => (fst answer, None)
          end),
     verified ++ [CSelectEF "00 1A"; CSignature (makeDigestInfo L hash digest);
                  CFinalize]).
Proof.
  destruct Hopen as [Hnew Hconnect]. unfold opening, sign_pin_file. cbn [app]. cbn zeta.
  intros Hv. run_api. answer Hnew. answer Hconnect. answer Hv.
  destruct (signature W _ (makeDigestInfo L hash digest)) as [sig [e |]];
    cbn beta iota zeta; norm_log; reflexivity.
Qed.

End Outcomes.

(** X12 to X15 at a card on which everything succeeds. *)
Lemma session_opens_ok (verify_answer : option error) (token : string)
      (binary : Z -> list Z) (certificate : option Certificate * option error) (l0 : Log) :
  session_opens lib0 (world verify_answer token binary certificate) l0.
Proof. split; reflexivity. Qed.

Lemma Change4DigitPin_outcome_witness :
  Change4DigitPin lib0 world_legacy_card "1234" "5678" "SOMETHING_ELSE" [] =
    (Ret None,
     [CNewReader; CSetDebug false; CConnect; CVerify "1234"; CChangePin "5678"; CFinalize]).
Proof.
  apply (Change4DigitPin_outcome lib0 world_legacy_card []
           (session_opens_ok _ _ _ _ _) "1234" "5678" "SOMETHING_ELSE"); reflexivity.
Defined.

Lemma ChangeJPKISignPin_outcome_witness :
  ChangeJPKISignPin lib0 world_legacy_card "abc123" "xyz789" [] =
    (Ret None,
     [CNewReader; CSetDebug false; CConnect; CSelectJPKIAP; CSelectEF "00 1B";
      CVerify "ABC123"; CChangePin "XYZ789"; CFinalize]).
Proof.
  apply (ChangeJPKISignPin_outcome lib0 world_legacy_card []
           (session_opens_ok _ _ _ _ _) "abc123" "xyz789"); reflexivity.
Defined.

Lemma GetJPKICert_outcome_witness :
  GetJPKICert lib0 world_wrong_pin "00 01" "ABC123" [] =
    (Ret (None, Some "暗証番号が間違っています"),
     [CNewReader; CSetDebug false; CConnect; CSelectJPKIAP;
      CVerifySignPin "ABC123"; CFinalize]).
Proof.
  apply (proj2 (GetJPKICert_outcome lib0 world_wrong_pin []
                  (session_opens_ok _ _ _ _ _) "00 01" "ABC123" eq_refl)).
  discriminate.
Defined.

Lemma Sign_outcome_witness :
  Sign lib0 world_legacy_card (mkJPKISignSigner "ABC123" [0x01]) [0xAB] 5 [] =
    (Ret ([0x30; 0xAB], None),
     [CNewReader; CSetDebug false; CConnect; CSelectJPKIAP; CSelectEF "00 1B";
      CVerify "ABC123"; CSelectEF "00 1A"; CSignature [0x30; 0xAB]; CFinalize]).
Proof.
  apply (Sign_outcome lib0 world_legacy_card [] (session_opens_ok _ _ _ _ _)
           (mkJPKISignSigner "ABC123" [0x01]) [0xAB] 5).
  reflexivity.
Defined.

(** ** The four attributes *)

Section Attributes.
Variable L : Lib.
Variable W : World.

(** What [asn1.Unmarshal] reports as the encoding of an element is never
    longer than what it was given. *)
Hypothesis Hfull : forall b, len (FullBytes (Unmarshal L b)) <= len b.

Lemma len_skipn (b : list Z) (k : Z) :
  0 <= k <= len b -> len (skipn (Z.to_nat k) b) = len b - k.
Proof. intros H. unfold len in *. rewrite length_skipn. lia. Qed.

Lemma wrap16_le (z : Z) : 0 <= z -> 0 <= wrap16 z <= z.
Proof.
  intros H. unfold wrap16. split; [apply Z.mod_pos_bound; lia | apply Z.mod_le; lia].
Qed.

Lemma GetAttrInfo_loop_safe (data : list Z) (log : Log) :
  forall (n : nat) (offset : Z),
    0 <= offset <= len data ->
    exists attr,
      GetAttrInfo_loop L n data offset log = (Ret attr, log) /\ List.length attr = n.
Proof.
  induction n as [| n IH]; intros offset Hoff.
  - exists []. split; reflexivity.
  - cbn [GetAttrInfo_loop]. unfold bind, slice_from.
    destruct (Z.gtb_spec offset (len data)) as [Hgt | _]; [lia |].
    unfold ret at 1.
    set (a := Unmarshal L (skipn (Z.to_nat offset) data)).
    assert (Ha : 0 <= len (FullBytes a) <= len data - offset).
    { split; [unfold len; lia |]. subst a.
      rewrite <- (len_skipn data offset Hoff). apply Hfull. }
    destruct (IH (wrap16 (offset + wrap16 (len (FullBytes a))))) as (attr & Hl & Hn).
    { pose proof (wrap16_le (len (FullBytes a)) ltac:(lia)).
      pose proof (wrap16_le (offset + wrap16 (len (FullBytes a))) ltac:(lia)). lia. }
    rewrite Hl. exists (a :: attr). split; [reflexivity | cbn; lia].
Qed.

Lemma GetAttrInfo_loop_panics (data : list Z) (log : Log) (n : nat) (offset : Z) :
  len data < offset ->
  GetAttrInfo_loop L (S n) data offset log = (Panic "slice bounds out of range", log).
Proof.
  intros H. cbn [GetAttrInfo_loop]. unfold bind, slice_from.
  destruct (Z.gtb_spec offset (len data)) as [_ | Hle]; [reflexivity | lia].
Qed.

(** X16. Once the PIN is verified, the first read gave 7 octets and the
    parser accepted them, [GetAttrInfo] decodes whatever the second read
    returns without checking how much that is: it returns its five
    attributes, with a nil error, when the read gave at least [offset]
    octets, and it panics on [data[offset:]] when the read gave fewer (as
    when the read fails and returns nil). *)
Theorem GetAttrInfo_decoding (pin : string) (l0 : Log) (size offset : Z) :
  session_opens L W l0 ->
  let verified := l0 ++ opening L ++ helper_pin_file ++ [CVerify pin] in
  verify W (l0 ++ opening L ++ helper_pin_file) pin = None ->
  let first := readBinary W (verified ++ [CSelectEF "00 02"]) 7 in
  len first = 7 ->
  Parse L first = (None, size, offset) ->
  0 <= offset ->
  let data := readBinary W (verified ++ [CSelectEF "00 02"; CReadBinary 7]) size in
  (offset <= len data ->
   exists info,
     fst (GetAttrInfo L W pin l0) = Ret (Some info, None) /\
     map fst info = ["header"; "name"; "address"; "birth"; "sex"]) /\
  (len data < offset ->
   fst (GetAttrInfo L W pin l0) = Panic "slice bounds out of range").
Proof.
  intros [Hnew Hconnect]. unfold opening, helper_pin_file. cbn [app]. cbn zeta.
  intros Hv H7 HP Hoff.
  rewrite <- ?app_assoc in H7, HP |- *. cbn [app] in H7, HP |- *.
  assert (Hrun : forall r,
    GetAttrInfo_loop L 5
      (readBinary W
         (l0 ++ [CNewReader; CSetDebug (Debug L); CConnect; CSelectCardInputHelperAP;
                 CSelectEF "00 11"; CVerify pin; CSelectEF "00 02"; CReadBinary 7]) size)
      offset
      (l0 ++ [CNewReader; CSetDebug (Debug L); CConnect; CSelectCardInputHelperAP;
              CSelectEF "00 11"; CVerify pin; CSelectEF "00 02"; CReadBinary 7;
              CReadBinary size]) = (r, l0 ++ [CNewReader; CSetDebug (Debug L); CConnect; CSelectCardInputHelperAP;
              CSelectEF "00 11"; CVerify pin; CSelectEF "00 02"; CReadBinary 7;
              CReadBinary size]) ->
    fst (GetAttrInfo L W pin l0) =
      match r with
      | Ret attr =>
          Ret (Some [ ("header", fmt_spX (attr_Bytes attr 0));
                      ("name", string_of_bytes (attr_Bytes attr 1));
                      ("address", string_of_bytes (attr_Bytes attr 2));
                      ("birth", string_of_bytes (attr_Bytes attr 3));
                      ("sex", string_of_bytes (attr_Bytes attr 4)) ], None)
      | Panic msg => Panic msg
      end).
  { intros r Hr. run_api. answer Hnew. answer Hconnect. answer Hv.
    rewrite H7. cbn [Z.eqb Pos.eqb negb]. cbn beta iota zeta. norm_log.
    rewrite HP. cbn beta iota zeta. norm_log. rewrite Hr.
    destruct r; reflexivity. }
  split; intros Hd.
  - destruct (GetAttrInfo_loop_safe
                (readBinary W
                   (l0 ++ [CNewReader; CSetDebug (Debug L); CConnect;
                           CSelectCardInputHelperAP; CSelectEF "00 11"; CVerify pin;
                           CSelectEF "00 02"; CReadBinary 7]) size)
                (l0 ++ [CNewReader; CSetDebug (Debug L); CConnect; CSelectCardInputHelperAP;
                        CSelectEF "00 11"; CVerify pin; CSelectEF "00 02"; CReadBinary 7;
                        CReadBinary size]) 5 offset ltac:(lia)) as (attr & Hl & _).
    eexists. rewrite (Hrun _ Hl). split; reflexivity.
  - rewrite (Hrun _ (GetAttrInfo_loop_panics _ _ 4 offset Hd)). reflexivity.
Qed.

End Attributes.

Lemma der_short_full (b : list Z) : len (FullBytes (der_short b)) <= len b.
Proof.
  unfold der_short. destruct b as [| t [| n rest]]; try (unfold len; cbn; lia).
  destruct ((n <? 128) && (n <=? len rest)); [| unfold len; cbn; lia].
  cbn [FullBytes]. unfold len. rewrite length_firstn. lia.
Qed.

(** X16 at a record of five elements, read whole and then cut off. *)
Lemma GetAttrInfo_decoding_witness :
  fst (GetAttrInfo lib0 world_attributes "1234" []) =
    Ret (Some [("header", "AA"); ("name", "A"); ("address", "B"); ("birth", "C");
               ("sex", "1")], None) /\
  fst (GetAttrInfo lib0 world_attributes_cut "1234" []) = Panic "slice bounds out of range".
Proof.
  split.
  - destruct (proj1 (GetAttrInfo_decoding lib0 world_attributes der_short_full "1234" []
                       17 2 (session_opens_ok _ _ _ _ _) eq_refl eq_refl eq_refl
                       ltac:(lia)) ltac:(vm_compute; discriminate)) as (info & H & _).
    rewrite H. vm_compute in H. inversion H. reflexivity.
  - apply (proj2 (GetAttrInfo_decoding lib0 world_attributes_cut der_short_full "1234" []
                    17 2 (session_opens_ok _ _ _ _ _) eq_refl eq_refl eq_refl
                    ltac:(lia))).
    vm_compute. reflexivity.
Defined.

(** ** Writing the signed message *)

(** X17. [writeCms] writes to standard output when no file is named and
    then opens and closes nothing. With a file named, a failed open is
    returned and nothing is written, and [Close] is called all the same.
    A form that is neither PEM nor DER (in any case of letters) writes
    nothing and still reports success, after the file was opened. *)
Theorem writeCms_outcome (L : Lib) (W : World) (out : string) (signed : list Z)
        (form : string) (l0 : Log) :
  let u := ToUpper L form in
  let written (log : Log) : option error * Log :=
    if String.eqb u "PEM" then (pemEncode W log "PKCS7" signed, [CPemEncode "PKCS7" signed])
    else if String.eqb u "DER" then (write W log signed, [CWrite signed])
    else (None, []) in
  (out = "" ->
   writeCms L W out signed form l0 = (Ret (fst (written l0)), l0 ++ snd (written l0))) /\
  (out <> "" ->
   writeCms L W out signed form l0 =
     match openFile W l0 out with
     | Some e => (Ret (Some e), l0 ++ [COpenFile out; CClose])
     | None =>
         (Ret (fst (written (l0 ++ [COpenFile out]))),
          l0 ++ [COpenFile out] ++ snd (written (l0 ++ [COpenFile out])) ++ [CClose])
     end) /\
  (u <> "PEM" -> u <> "DER" -> forall log, written log = (None, [])).
Proof.
  cbn zeta. split; [| split].
  - intros ->. unfold writeCms. cbn [String.eqb].
    destruct (String.eqb (ToUpper L form) "PEM");
      [| destruct (String.eqb (ToUpper L form) "DER")].
    + unfold on_err, bind, call, ret. cbn [fst snd].
      destruct (pemEncode W l0 "PKCS7" signed); reflexivity.
    + unfold on_err, bind, call, ret. cbn [fst snd].
      destruct (write W l0 signed); reflexivity.
    + unfold ret. cbn [fst snd]. rewrite app_nil_r. reflexivity.
  - intros Hout. apply String.eqb_neq in Hout. unfold writeCms. rewrite Hout.
    unfold on_err, bind, call, ret.
    destruct (openFile W l0 out) as [e |].
    + rewrite <- app_assoc. reflexivity.
    + destruct (String.eqb (ToUpper L form) "PEM");
        [| destruct (String.eqb (ToUpper L form) "DER")]; cbn [fst snd].
      * destruct (pemEncode W (l0 ++ [COpenFile out]) "PKCS7" signed);
          rewrite <- !app_assoc; reflexivity.
      * destruct (write W (l0 ++ [COpenFile out]) signed);
          rewrite <- !app_assoc; reflexivity.
      * rewrite <- !app_assoc. reflexivity.
  - intros Hp Hd log. apply String.eqb_neq in Hp, Hd. rewrite Hp, Hd. reflexivity.
Qed.

(** X17 at a form that is not known, and at a file that cannot be opened. *)
Lemma writeCms_outcome_witness :
  writeCms lib0 world_legacy_card "out.p7s" [0x30] "base64" [] =
    (Ret None, [COpenFile "out.p7s"; CClose]) /\
  writeCms lib0 world_no_output "out.p7s" [0x30] "der" [] =
    (Ret (Some "permission denied"), [COpenFile "out.p7s"; CClose]).
Proof.
  split.
  - apply (proj1 (proj2 (writeCms_outcome lib0 world_legacy_card "out.p7s" [0x30]
                           "base64" []))). discriminate.
  - apply (proj1 (proj2 (writeCms_outcome lib0 world_no_output "out.p7s" [0x30]
                           "der" []))). discriminate.
Defined.

(** ** The card type, as the API checks it *)

(** X18. [CheckCard] returns the errors of [NewReader] and [Connect] as
    they are, and replaces the error of either selection by a fixed
    message of its own, whatever that error was; a reader that could not
    be made is not finalized, every other path finalizes it. *)
Theorem CheckCard_error_messages (L : Lib) (W : World) (l0 : Log) :
  (forall e, newReader W l0 = Some e ->
     CheckCard L W l0 = (Ret (Some e), l0 ++ [CNewReader])) /\
  (newReader W l0 = None ->
   forall e, connect W (l0 ++ [CNewReader; CSetDebug (Debug L)]) = Some e ->
     CheckCard L W l0 = (Ret (Some e), l0 ++ opening L ++ [CFinalize])) /\
  (session_opens L W l0 ->
   forall e, selectJPKIAP W (l0 ++ opening L) = Some e ->
     CheckCard L W l0 =
       (Ret (Some "個人番号カードではありません"),
        l0 ++ opening L ++ [CSelectJPKIAP; CFinalize])) /\
  (session_opens L W l0 -> selectJPKIAP W (l0 ++ opening L) = None ->
   forall e, selectEF W (l0 ++ opening L ++ [CSelectJPKIAP]) "00 06" = Some e ->
     CheckCard L W l0 =
       (Ret (Some "トークン情報を取得できません"),
        l0 ++ opening L ++ [CSelectJPKIAP; CSelectEF "00 06"; CFinalize])).
Proof.
  unfold session_opens, opening. cbn [app].
  split; [| split; [| split]].
  - intros e H1. run_api. answer H1. reflexivity.
  - intros H1 e H2. run_api. answer H1. answer H2. reflexivity.
  - intros [H1 H2] e H3. run_api. answer H1. answer H2. answer H3. reflexivity.
  - intros [H1 H2] H3 e H4. run_api. answer H1. answer H2. answer H3. answer H4.
    reflexivity.
Qed.

(** X18 at a card without the application: the error of the selection is
    not what the caller sees. *)
Lemma CheckCard_error_messages_witness :
  CheckCard lib0
    {| newReader := fun _ => None;
       connect := fun _ => None;
       selectJPKIAP := fun _ => Some "SW 6A82";
       selectCardInputHelperAP := fun _ => None;
       selectEF := fun _ _ => None;
       verify := fun _ _ => None;
       readBinary := fun _ _ => [];
       changePin := fun _ _ => true;
       signature := fun _ d => (d, None);
       getToken := fun _ => ("", None);
       verifySignPin := fun _ _ => None;
       readCertificate := fun _ _ => (None, None);
       readFile := fun _ _ => ([], None);
       openFile := fun _ _ => None;
       pemEncode := fun _ _ _ => None;
       write := fun _ _ => None |} [] =
    (Ret (Some "個人番号カードではありません"),
     [CNewReader; CSetDebug false; CConnect; CSelectJPKIAP; CFinalize]).
Proof.
  refine (proj1 (proj2 (proj2 (CheckCard_error_messages lib0 _ []))) _ "SW 6A82" _).
  - split; reflexivity.
  - reflexivity.
Defined.

(** ** Digest names *)

(** X19. [GetDigestOID] looks only at the upper-case form of the name: it
    gives an identifier, and no error, exactly when that form is one of
    the four names, two names get the same identifier when their
    upper-case forms agree, and a supported name shares its identifier
    with no name of another upper-case form; on error the identifier is
    nil. *)
Theorem GetDigestOID_names (L : Lib) (md1 md2 : string) :
  (snd (GetDigestOID L md1) = None <-> fst (GetDigestOID L md1) <> []) /\
  (ToUpper L md1 = ToUpper L md2 ->
   fst (GetDigestOID L md1) = fst (GetDigestOID L md2)) /\
  (snd (GetDigestOID L md1) = None ->
   fst (GetDigestOID L md1) = fst (GetDigestOID L md2) ->
   ToUpper L md1 = ToUpper L md2).
Proof.
  unfold GetDigestOID. split; [| split].
  - repeat match goal with
           | |- context [String.eqb ?a ?b] => destruct (String.eqb a b)
           end; cbn [fst snd]; split; intros H; try reflexivity; try discriminate;
      try (contradiction H; reflexivity).
  - intros ->.
    repeat match goal with
           | |- context [String.eqb ?a ?b] => destruct (String.eqb a b)
           end; reflexivity.
  - repeat match goal with
           | |- context [String.eqb ?a ?b] => destruct (String.eqb_spec a b)
           end; cbn [fst snd]; intros H1 H2; try discriminate; congruence.
Qed.

Lemma GetDigestOID_names_witness :
  ascii_ToUpper "sha256" = ascii_ToUpper "Sha256".
Proof.
  apply (proj2 (proj2 (GetDigestOID_names lib0 "sha256" "Sha256"))); reflexivity.
Defined.

End LibmynaExtras.
